(** * ShoreSquad front-end (js/app.js): a shallow embedding and its properties

    The development follows the layout of the script: the JavaScript values
    the script manipulates (strings, numbers, JSON-shaped values), the host
    built-ins it calls ([JSON.parse], [RegExp.prototype.test], [Date],
    [Math.round]), the application state and document, and then the
    functions of the script in source order.  Theorems come last. *)

From Stdlib Require Import ZArith NArith List Bool Lia String Ascii.
From Stdlib Require Import PrimFloat FloatOps SpecFloat Uint63.
Import ListNotations.

Set Implicit Arguments.
Set Warnings "-inexact-float,-register-all".

(* ================================================================== *)
(** ** Strings: sequences of UTF-16 code units *)
(* ================================================================== *)

Module JsStr.

(** A JavaScript string is a finite sequence of 16-bit code units. *)
Definition jsstring := list N.

(** Source literals are written as Rocq strings, whose bytes are the UTF-8
    text of the source file; [js] turns them into code units. *)
Definition cont (b : N) : N := N.land b 63.

Fixpoint utf8_points (bs : list N) : list N :=
  match bs with
  | [] => []
  | b0 :: t =>
      if (b0 <? 128)%N then b0 :: utf8_points t
      else if (b0 <? 224)%N then
        match t with
        | b1 :: t1 => (N.land b0 31 * 64 + cont b1)%N :: utf8_points t1
        | _ => [65533%N]
        end
      else if (b0 <? 240)%N then
        match t with
        | b1 :: b2 :: t2 =>
            (N.land b0 15 * 4096 + cont b1 * 64 + cont b2)%N :: utf8_points t2
        | _ => [65533%N]
        end
      else
        match t with
        | b1 :: b2 :: b3 :: t3 =>
            (N.land b0 7 * 262144 + cont b1 * 4096 + cont b2 * 64 + cont b3)%N
              :: utf8_points t3
        | _ => [65533%N]
        end
  end.

Definition utf16_units (cp : N) : list N :=
  if (cp <? 65536)%N then [cp]
  else let v := (cp - 65536)%N in
       [(55296 + v / 1024)%N; (56320 + v mod 1024)%N].

Definition js (s : string) : jsstring :=
  flat_map utf16_units
    (utf8_points (map N_of_ascii (list_ascii_of_string s))).

Fixpoint eqb (a b : jsstring) : bool :=
  match a, b with
  | [], [] => true
  | x :: a', y :: b' => (x =? y)%N && eqb a' b'
  | _, _ => false
  end.

(** [String.prototype.includes]: is [pat] a contiguous part of [s]? *)
Fixpoint starts_with (pat s : jsstring) : bool :=
  match pat, s with
  | [], _ => true
  | p :: pat', c :: s' => (p =? c)%N && starts_with pat' s'
  | _ :: _, [] => false
  end.

Fixpoint includes (s pat : jsstring) : bool :=
  starts_with pat s ||
  match s with
  | [] => false
  | _ :: s' => includes s' pat
  end.

(** Decimal digits of a natural number, most significant first; the text
    [Number::toString] gives for a non-negative integer below 2^53. *)
Fixpoint digits_fuel (fuel : nat) (n : N) (acc : jsstring) : jsstring :=
  match fuel with
  | O => acc
  | S f =>
      let acc' := (48 + n mod 10)%N :: acc in
      if (n <? 10)%N then acc' else digits_fuel f (n / 10)%N acc'
  end.

Definition decimal (n : N) : jsstring :=
  digits_fuel (S (N.to_nat (N.log2 n))) n [].

(** Left-pads with zeros to [w] code units ([String.prototype.padStart]
    as the date formatter uses it). *)
Definition pad0 (w : nat) (s : jsstring) : jsstring :=
  List.repeat 48%N (w - List.length s) ++ s.

End JsStr.

Import JsStr.

(* ================================================================== *)
(** ** Numbers: IEEE 754 binary64 *)
(* ================================================================== *)

Module JsNum.

(** The integer [z] as a Number (round to nearest, ties to even; exact
    below 2^53 in magnitude). *)
Definition of_Z (z : Z) : float :=
  SF2Prim (binary_normalize prec emax z 0 false).

Definition of_nat (n : nat) : float := of_Z (Z.of_nat n).

(** The Number nearest to the rational [n / d], for [0 < d]: the quotient is
    taken with 64 bits or more, and the remainder decides the rounding. *)
Definition of_ratio (neg : bool) (n d : positive) : float :=
  let k := Z.max 0 (64 + Zpos (digits2_pos d) - Zpos (digits2_pos n)) in
  let num := (Zpos n * 2 ^ k)%Z in
  let q := (num / Zpos d)%Z in
  let r := (num mod Zpos d)%Z in
  let loc := if (r =? 0)%Z then loc_Exact
             else loc_Inexact (Z.compare (2 * r) (Zpos d)) in
  SF2Prim (binary_round_aux prec emax neg q (- k) loc).

(** The Number denoted by the decimal numeral [m * 10^e]. *)
Definition of_decimal (neg : bool) (m : N) (e : Z) : float :=
  match m with
  | N0 => if neg then (-0)%float else 0%float
  | Npos p =>
      match e with
      | Zneg pe => of_ratio neg p (Pos.pow 10 pe)
      | _ => SF2Prim (binary_normalize prec emax
                        (if neg then - (Zpos p * 10 ^ e) else Zpos p * 10 ^ e)
                        0 false)
      end
  end.

(** [Math.round]: the nearest integer, a tie going towards +Infinity;
    NaN, the infinities and the zeros are returned unchanged, and a negative
    argument that rounds to zero gives -0. *)
Definition Math_round (x : float) : float :=
  match Prim2SF x with
  | S754_finite s m e =>
      if (0 <=? e)%Z then x
      else
        let d := (2 ^ (- e))%Z in
        if s then
          let r := ((2 * Zpos m - d + 2 * d - 1) / (2 * d))%Z in
          if (r =? 0)%Z then (-0)%float else PrimFloat.opp (of_Z r)
        else of_Z ((2 * Zpos m + d) / (2 * d))%Z
  | _ => x
  end.

(** [Math.floor]. *)
Definition Math_floor (x : float) : float :=
  match Prim2SF x with
  | S754_finite s m e =>
      if (0 <=? e)%Z then x
      else
        let d := (2 ^ (- e))%Z in
        if s then PrimFloat.opp (of_Z ((Zpos m + d - 1) / d))
        else of_Z (Zpos m / d)
  | _ => x
  end.

(** The integer value of a Number that holds one (the index computed by
    [Math.floor(Math.random() * 3)]); [None] otherwise. *)
Definition to_Z (x : float) : option Z :=
  match Prim2SF x with
  | S754_zero _ => Some 0%Z
  | S754_finite s m e =>
      if (0 <=? e)%Z then
        Some (if s then - (Zpos m * 2 ^ e) else Zpos m * 2 ^ e)%Z
      else if (Zpos m mod 2 ^ (- e) =? 0)%Z then
        Some (if s then - (Zpos m / 2 ^ (- e)) else Zpos m / 2 ^ (- e))%Z
      else None
  | _ => None
  end.

(** ToBoolean on a Number: false for +0, -0 and NaN. *)
Definition truthy (x : float) : bool :=
  negb (PrimFloat.is_zero x || PrimFloat.is_nan x).

End JsNum.

(* ================================================================== *)
(** ** Values *)
(* ================================================================== *)

Local Open Scope string_scope.
Local Open Scope list_scope.

(** The values the script handles: primitives, arrays and plain objects
    (what [JSON.parse] and the script's literals produce).  An object is its
    list of own properties, each key once, in the order of enumeration. *)
Inductive JsVal :=
| VUndefined
| VNull
| VBool (b : bool)
| VNum (x : float)
| VStr (s : jsstring)
| VArr (elems : list JsVal)
| VObj (props : list (jsstring * JsVal)).

Definition Props := list (jsstring * JsVal).

(** Exceptions the modelled code can raise. *)
Inductive Exn :=
| TypeError
| SyntaxError
| RangeError
| ErrorMsg (message : jsstring).

(** Built-ins of the engine whose algorithms are not modelled: the theorems
    hold for every implementation of them. *)
Record Engine := {
  NumberToString : float -> jsstring;   (* ToString on a Number *)
  StringToNumber : jsstring -> float;   (* ToNumber on a String *)
  toLowerCase : jsstring -> jsstring;   (* String.prototype.toLowerCase *)
  toFixed : float -> nat -> jsstring;   (* Number.prototype.toFixed *)
  LocalTZA : Z -> bool -> Z;            (* local time zone adjustment, ms *)
  hostDateParse : jsstring -> option Z  (* Date.parse outside the standard format *)
}.

Module Js.

Fixpoint obj_get (p : Props) (k : jsstring) : option JsVal :=
  match p with
  | [] => None
  | (k', v) :: p' => if JsStr.eqb k' k then Some v else obj_get p' k
  end.

(** Whether the object has the key as an own property. *)
Definition has_own (p : Props) (k : jsstring) : bool :=
  match obj_get p k with
  | Some _ => true
  | None => false
  end.

(** The array index a key stands for, if any: the key is the decimal text,
    without a leading zero, of an integer below 2^32 - 1. *)
Definition array_index (k : jsstring) : option N :=
  let n := fold_left (fun acc c => (acc * 10 + (c - 48))%N) k 0%N in
  if JsStr.eqb (JsStr.decimal n) k && (n <? 4294967295)%N then Some n else None.

(** A new value for a key the object has: the key keeps its place. *)
Fixpoint obj_replace (p : Props) (k : jsstring) (v : JsVal) : Props :=
  match p with
  | [] => []
  | (k', v') :: p' =>
      if JsStr.eqb k' k then (k', v) :: p' else (k', v') :: obj_replace p' k v
  end.

(** A new key that is the array index [n]: it goes among the array-index
    keys, which are kept in ascending order at the front. *)
Fixpoint obj_insert_index (p : Props) (n : N) (k : jsstring) (v : JsVal) : Props :=
  match p with
  | [] => [(k, v)]
  | (k', v') :: p' =>
      match array_index k' with
      | Some n' =>
          if (n' <? n)%N then (k', v') :: obj_insert_index p' n k v
          else (k, v) :: p
      | None => (k, v) :: p
      end
  end.

(** Defining or overwriting a property.  The list is kept in the order in
    which the engine enumerates own properties: the array-index keys in
    ascending order, then the other keys in the order of their creation;
    an existing key keeps its place. *)
Definition obj_set (p : Props) (k : jsstring) (v : JsVal) : Props :=
  if has_own p k then obj_replace p k v
  else
    match array_index k with
    | Some n => obj_insert_index p n k v
    | None => p ++ [(k, v)]
    end.

(** ToBoolean. *)
Definition truthy (v : JsVal) : bool :=
  match v with
  | VUndefined | VNull => false
  | VBool b => b
  | VNum x => JsNum.truthy x
  | VStr s => match s with [] => false | _ => true end
  | VArr _ | VObj _ => true
  end.

(** [a || b] on values: [b] is evaluated only when [a] is falsy. *)
Definition or_else (a : JsVal) (b : JsVal) : JsVal :=
  if truthy a then a else b.

(** Property read [v.k] for a name [k] that is not an array index.  Reading
    from [undefined] or [null] raises TypeError; inherited members other than
    [length] are not among the names the script reads as data. *)
Definition Get (v : JsVal) (k : jsstring) : Exn + JsVal :=
  match v with
  | VUndefined | VNull => inl TypeError
  | VObj p => inr (match obj_get p k with Some x => x | None => VUndefined end)
  | VArr l =>
      inr (if JsStr.eqb k (js "length") then VNum (JsNum.of_nat (List.length l))
           else VUndefined)
  | VStr s =>
      inr (if JsStr.eqb k (js "length") then VNum (JsNum.of_nat (List.length s))
           else VUndefined)
  | VBool _ | VNum _ => inr VUndefined
  end.

(** Indexed read [v[i]]. *)
Definition GetIndex (v : JsVal) (i : nat) : Exn + JsVal :=
  match v with
  | VUndefined | VNull => inl TypeError
  | VObj p =>
      inr (match obj_get p (JsStr.decimal (N.of_nat i)) with
           | Some x => x | None => VUndefined end)
  | VArr l => inr (nth i l VUndefined)
  | VStr s =>
      inr (match nth_error s i with Some c => VStr [c] | None => VUndefined end)
  | VBool _ | VNum _ => inr VUndefined
  end.

(** Own enumerable properties, as object spread copies them. *)
Fixpoint indexed (A : Type) (f : A -> JsVal) (i : N) (l : list A) : Props :=
  match l with
  | [] => []
  | x :: l' => (JsStr.decimal i, f x) :: indexed f (N.succ i) l'
  end.

Definition own_props (v : JsVal) : Props :=
  match v with
  | VObj p => p
  | VArr l => indexed (fun x => x) 0 l
  | VStr s => indexed (fun c => VStr [c]) 0 s
  | _ => []
  end.

(** [{ ...a, ...b }] for an object [a]. *)
Definition spread (a : Props) (b : JsVal) : Props :=
  fold_left (fun acc kv => obj_set acc (fst kv) (snd kv)) (own_props b) a.

(** [a === b] against a string literal. *)
Definition strict_eq_str (v : JsVal) (lit : jsstring) : bool :=
  match v with
  | VStr s => JsStr.eqb s lit
  | _ => false
  end.

Section Conversions.
Variable eng : Engine.

(** ToString of a convertible value; arrays join their elements with a
    comma, plain objects give the text [[object Object]]. *)
Fixpoint ToString (v : JsVal) : jsstring :=
  match v with
  | VUndefined => js "undefined"
  | VNull => js "null"
  | VBool true => js "true"
  | VBool false => js "false"
  | VNum x => NumberToString eng x
  | VStr s => s
  | VArr l =>
      (fix join (l : list JsVal) : jsstring :=
         match l with
         | [] => []
         | x :: r =>
             let e := match x with
                      | VUndefined | VNull => []
                      | _ => ToString x
                      end in
             match r with
             | [] => e
             | _ => e ++ js "," ++ join r
             end
         end) l
  | VObj _ => js "[object Object]"
  end.

(** Whether the conversion of a value to a primitive (and so to a string or
    a number) returns.  A plain object is converted by
    [Object.prototype.toString], unless it has an own property named
    [toString]: its value is no function in the values modelled, and the
    conversion raises TypeError.  An array is converted by joining the
    strings of its elements, so it converts when they all do. *)
Fixpoint convertible (v : JsVal) : bool :=
  match v with
  | VObj p => negb (has_own p (js "toString"))
  | VArr l =>
      (fix all (l : list JsVal) : bool :=
         match l with
         | [] => true
         | x :: r => convertible x && all r
         end) l
  | _ => true
  end.

(** ToPrimitive of a convertible value: arrays and objects become their
    strings. *)
Definition ToPrimitive (v : JsVal) : JsVal :=
  match v with
  | VArr _ | VObj _ => VStr (ToString v)
  | _ => v
  end.

(** ToNumber of a convertible value. *)
Definition ToNumber (v : JsVal) : float :=
  match ToPrimitive v with
  | VUndefined => nan
  | VNull => 0%float
  | VBool true => 1%float
  | VBool false => 0%float
  | VNum x => x
  | VStr s => StringToNumber eng s
  | _ => nan
  end.

(** The [+] operator. *)
Definition add (a b : JsVal) : Exn + JsVal :=
  if convertible a && convertible b then
    inr (match ToPrimitive a, ToPrimitive b with
         | VStr s, pb => VStr (s ++ ToString pb)
         | pa, VStr s => VStr (ToString pa ++ s)
         | pa, pb => VNum (ToNumber pa + ToNumber pb)%float
         end)
  else inl TypeError.

(** [v > 0]. *)
Definition gt_zero (v : JsVal) : Exn + bool :=
  if convertible v then inr (PrimFloat.ltb 0%float (ToNumber v))
  else inl TypeError.

(** [${v}] in a template literal: the string of [v]. *)
Definition template (v : JsVal) : Exn + jsstring :=
  if convertible v then inr (ToString v) else inl TypeError.
End Conversions.

End Js.

(* ================================================================== *)
(** ** JSON.parse *)
(* ================================================================== *)

Module Json.

Definition chr (a : ascii) : N := N_of_ascii a.
Definition isc (c : N) (a : ascii) : bool := (c =? chr a)%N.
Definition is_quote (c : N) : bool := (c =? 34)%N.

Inductive Token :=
| TLBrace | TRBrace | TLBrack | TRBrack | TColon | TComma
| TStr (s : jsstring) | TNum (x : float) | TTrue | TFalse | TNull.

(** *** Numbers: an optional minus, an integer part without a leading zero
    (or a lone zero), an optional fraction and an optional exponent *)

Definition digit (c : N) : option N :=
  if ((48 <=? c) && (c <=? 57))%N then Some (c - 48)%N else None.

Fixpoint take_digits (s : jsstring) : list N * jsstring :=
  match s with
  | c :: r =>
      match digit c with
      | Some d => let (ds, rest) := take_digits r in (d :: ds, rest)
      | None => ([], s)
      end
  | [] => ([], [])
  end.

Definition digits_value (ds : list N) : N :=
  fold_left (fun acc d => (acc * 10 + d)%N) ds 0%N.

Definition int_part (s : jsstring) : option (list N * jsstring) :=
  match s with
  | c :: r =>
      if isc c "0" then Some ([0%N], r)
      else match take_digits s with
           | ([], _) => None
           | (ds, rest) => Some (ds, rest)
           end
  | [] => None
  end.

Definition frac_part (s : jsstring) : option (list N * jsstring) :=
  match s with
  | c :: r =>
      if isc c "." then
        match take_digits r with
        | ([], _) => None
        | (fs, rest) => Some (fs, rest)
        end
      else Some ([], s)
  | [] => Some ([], [])
  end.

Definition exp_part (s : jsstring) : option Z :=
  match s with
  | [] => Some 0%Z
  | c :: r =>
      if isc c "e" || isc c "E" then
        let (neg, r') :=
          match r with
          | sg :: r1 => if isc sg "-" then (true, r1)
                        else if isc sg "+" then (false, r1) else (false, r)
          | [] => (false, r)
          end in
        match take_digits r' with
        | ([], _) => None
        | (es, []) =>
            let e := Z.of_N (digits_value es) in
            Some (if neg then - e else e)%Z
        | (_, _ :: _) => None
        end
      else None
  end.

Definition number_of_lexeme (s : jsstring) : option float :=
  let (neg, s1) :=
    match s with
    | c :: r => if isc c "-" then (true, r) else (false, s)
    | [] => (false, s)
    end in
  match int_part s1 with
  | None => None
  | Some (ds, s2) =>
      match frac_part s2 with
      | None => None
      | Some (fs, s3) =>
          match exp_part s3 with
          | None => None
          | Some e =>
              Some (JsNum.of_decimal neg (digits_value (ds ++ fs))
                      (e - Z.of_nat (List.length fs)))
          end
      end
  end.

(** *** Lexer: one pass over the code units *)

Inductive LexState :=
| LStart
| LStr (acc : jsstring)                       (* inside a string, reversed *)
| LEsc (acc : jsstring)                       (* after a backslash *)
| LHex (acc : jsstring) (todo : nat) (v : N)  (* inside \uXXXX *)
| LNum (acc : jsstring)                       (* inside a number, reversed *)
| LWord (rest : jsstring) (t : Token).        (* inside null, true, false *)

Definition hex_digit (c : N) : option N :=
  if ((48 <=? c) && (c <=? 57))%N then Some (c - 48)%N
  else if ((97 <=? c) && (c <=? 102))%N then Some (c - 87)%N
  else if ((65 <=? c) && (c <=? 70))%N then Some (c - 55)%N
  else None.

Definition is_ws (c : N) : bool :=
  (c =? 32)%N || (c =? 9)%N || (c =? 10)%N || (c =? 13)%N.

Definition number_char (c : N) : bool :=
  match digit c with
  | Some _ => true
  | None => isc c "-" || isc c "+" || isc c "." || isc c "e" || isc c "E"
  end.

(** A code unit met between tokens. *)
Definition start_step (c : N) (toks : list Token) : option (LexState * list Token) :=
  if is_ws c then Some (LStart, toks)
  else if isc c "{" then Some (LStart, TLBrace :: toks)
  else if isc c "}" then Some (LStart, TRBrace :: toks)
  else if isc c "[" then Some (LStart, TLBrack :: toks)
  else if isc c "]" then Some (LStart, TRBrack :: toks)
  else if isc c ":" then Some (LStart, TColon :: toks)
  else if isc c "," then Some (LStart, TComma :: toks)
  else if is_quote c then Some (LStr [], toks)
  else if isc c "-" then Some (LNum [c], toks)
  else match digit c with
       | Some _ => Some (LNum [c], toks)
       | None =>
           if isc c "n" then Some (LWord (js "ull") TNull, toks)
           else if isc c "t" then Some (LWord (js "rue") TTrue, toks)
           else if isc c "f" then Some (LWord (js "alse") TFalse, toks)
           else None
       end.

Definition escape (c : N) : option N :=
  if is_quote c || isc c "\" || isc c "/" then Some c
  else if isc c "b" then Some 8%N
  else if isc c "f" then Some 12%N
  else if isc c "n" then Some 10%N
  else if isc c "r" then Some 13%N
  else if isc c "t" then Some 9%N
  else None.

Definition lex_step (st : LexState) (c : N) (toks : list Token)
  : option (LexState * list Token) :=
  match st with
  | LStart => start_step c toks
  | LStr acc =>
      if is_quote c then Some (LStart, TStr (rev acc) :: toks)
      else if isc c "\" then Some (LEsc acc, toks)
      else if (c <? 32)%N then None
      else Some (LStr (c :: acc), toks)
  | LEsc acc =>
      if isc c "u" then Some (LHex acc 4 0%N, toks)
      else match escape c with
           | Some e => Some (LStr (e :: acc), toks)
           | None => None
           end
  | LHex acc todo v =>
      match hex_digit c with
      | None => None
      | Some d =>
          let v' := (v * 16 + d)%N in
          match todo with
          | S (S n) => Some (LHex acc (S n) v', toks)
          | _ => Some (LStr (v' :: acc), toks)
          end
      end
  | LNum acc =>
      if number_char c then Some (LNum (c :: acc), toks)
      else match number_of_lexeme (rev acc) with
           | Some x => start_step c (TNum x :: toks)
           | None => None
           end
  | LWord rest t =>
      match rest with
      | e :: rest' =>
          if (c =? e)%N then
            match rest' with
            | [] => Some (LStart, t :: toks)
            | _ => Some (LWord rest' t, toks)
            end
          else None
      | [] => None
      end
  end.

Fixpoint lex (s : jsstring) (st : LexState) (toks : list Token)
  : option (list Token) :=
  match s with
  | c :: s' =>
      match lex_step st c toks with
      | Some (st', toks') => lex s' st' toks'
      | None => None
      end
  | [] =>
      match st with
      | LStart => Some (rev toks)
      | LNum acc =>
          match number_of_lexeme (rev acc) with
          | Some x => Some (rev (TNum x :: toks))
          | None => None
          end
      | _ => None
      end
  end.

(** *** Parser: one pass over the tokens, with the open containers on a stack *)

Inductive Frame :=
| FArr (acc : list JsVal)                    (* elements so far, reversed *)
| FObj (props : Props) (key : jsstring).     (* members so far, pending key *)

Inductive ParseState :=
| PValue (stk : list Frame)                  (* a value must follow *)
| PArrFirst (stk : list Frame)               (* just after [ *)
| PObjFirst (stk : list Frame)               (* just after { *)
| PObjKey (props : Props) (stk : list Frame) (* after a comma in an object *)
| PColon (props : Props) (key : jsstring) (stk : list Frame)
| PAfter (v : JsVal) (stk : list Frame).     (* a value is complete *)

Definition value_step (t : Token) (stk : list Frame) : option ParseState :=
  match t with
  | TStr s => Some (PAfter (VStr s) stk)
  | TNum x => Some (PAfter (VNum x) stk)
  | TTrue => Some (PAfter (VBool true) stk)
  | TFalse => Some (PAfter (VBool false) stk)
  | TNull => Some (PAfter VNull stk)
  | TLBrack => Some (PArrFirst stk)
  | TLBrace => Some (PObjFirst stk)
  | _ => None
  end.

Definition parse_step (st : ParseState) (t : Token) : option ParseState :=
  match st with
  | PValue stk => value_step t stk
  | PArrFirst stk =>
      match t with
      | TRBrack => Some (PAfter (VArr []) stk)
      | _ => value_step t (FArr [] :: stk)
      end
  | PObjFirst stk =>
      match t with
      | TRBrace => Some (PAfter (VObj []) stk)
      | TStr k => Some (PColon [] k stk)
      | _ => None
      end
  | PObjKey props stk =>
      match t with
      | TStr k => Some (PColon props k stk)
      | _ => None
      end
  | PColon props k stk =>
      match t with
      | TColon => Some (PValue (FObj props k :: stk))
      | _ => None
      end
  | PAfter v stk =>
      match stk, t with
      | FArr acc :: stk', TComma => Some (PValue (FArr (v :: acc) :: stk'))
      | FArr acc :: stk', TRBrack => Some (PAfter (VArr (rev (v :: acc))) stk')
      | FObj props k :: stk', TComma => Some (PObjKey (Js.obj_set props k v) stk')
      | FObj props k :: stk', TRBrace =>
          Some (PAfter (VObj (Js.obj_set props k v)) stk')
      | _, _ => None
      end
  end.

Fixpoint run (ts : list Token) (st : ParseState) : option JsVal :=
  match ts with
  | t :: ts' =>
      match parse_step st t with
      | Some st' => run ts' st'
      | None => None
      end
  | [] =>
      match st with
      | PAfter v [] => Some v
      | _ => None
      end
  end.

(** [JSON.parse(text)]: the value, or SyntaxError. *)
Definition parse (text : jsstring) : Exn + JsVal :=
  match lex text LStart [] with
  | None => inl SyntaxError
  | Some ts =>
      match run ts (PValue []) with
      | Some v => inr v
      | None => inl SyntaxError
      end
  end.

End Json.

(** Test inputs are written with an apostrophe where the JSON text has a
    double quote. *)
Definition jsq (s : string) : jsstring :=
  map (fun c => if (c =? 39)%N then 34%N else c) (js s).

(* ================================================================== *)
(** ** Regular expressions (the fragment the script uses) *)
(* ================================================================== *)

Module RegExp.

Inductive ClassItem :=
| CChar (c : N)            (* a literal code unit *)
| CRange (lo hi : N)       (* lo-hi *)
| CSpace.                  (* \s *)

Inductive Re :=
| RVoid                                      (* matches nothing *)
| REps                                       (* the empty sequence *)
| RChar (c : N)
| RAny                                       (* any code unit *)
| RClass (negated : bool) (items : list ClassItem)
| RSeq (a b : Re)
| RAlt (a b : Re)
| RStar (a : Re).

Definition RPlus (a : Re) : Re := RSeq a (RStar a).

(** A pattern as written between the slashes, with its two anchors. *)
Record Pattern := {
  anchored_start : bool;   (* ^ *)
  body : Re;
  anchored_end : bool      (* $ *)
}.

(** The code units [\s] matches: WhiteSpace and LineTerminator. *)
Definition is_space (c : N) : bool :=
  ((9 <=? c) && (c <=? 13) || (c =? 32) || (c =? 160) || (c =? 5760)
   || (8192 <=? c) && (c <=? 8202) || (c =? 8232) || (c =? 8233)
   || (c =? 8239) || (c =? 8287) || (c =? 12288) || (c =? 65279))%N.

Definition item_has (i : ClassItem) (c : N) : bool :=
  match i with
  | CChar x => (c =? x)%N
  | CRange lo hi => ((lo <=? c) && (c <=? hi))%N
  | CSpace => is_space c
  end.

Definition class_has (negated : bool) (items : list ClassItem) (c : N) : bool :=
  xorb negated (existsb (fun i => item_has i c) items).

Fixpoint nullable (r : Re) : bool :=
  match r with
  | RVoid | RChar _ | RAny | RClass _ _ => false
  | REps | RStar _ => true
  | RSeq a b => nullable a && nullable b
  | RAlt a b => nullable a || nullable b
  end.

(** What remains to be matched after the code unit [c]. *)
Fixpoint deriv (r : Re) (c : N) : Re :=
  match r with
  | RVoid | REps => RVoid
  | RChar x => if (c =? x)%N then REps else RVoid
  | RAny => REps
  | RClass n items => if class_has n items c then REps else RVoid
  | RSeq a b =>
      if nullable a then RAlt (RSeq (deriv a c) b) (deriv b c)
      else RSeq (deriv a c) b
  | RAlt a b => RAlt (deriv a c) (deriv b c)
  | RStar a => RSeq (deriv a c) (RStar a)
  end.

Fixpoint matches (r : Re) (s : jsstring) : bool :=
  match s with
  | [] => nullable r
  | c :: s' => matches (deriv r c) s'
  end.

(** [RegExp.prototype.test] without flags: is there a match somewhere in
    [s]?  An anchor pins the match to that end of the input. *)
Definition test (p : Pattern) (s : jsstring) : bool :=
  let pre := if anchored_start p then REps else RStar RAny in
  let post := if anchored_end p then REps else RStar RAny in
  matches (RSeq pre (RSeq (body p) post)) s.

End RegExp.

(* ================================================================== *)
(** ** Dates: time values in milliseconds since the epoch *)
(* ================================================================== *)

Module JsDate.
Local Open Scope Z_scope.

Definition msPerDay : Z := 86400000.

Definition Day (t : Z) : Z := t / msPerDay.
Definition TimeWithinDay (t : Z) : Z := t mod msPerDay.

(** Day number of a civil date in the proleptic Gregorian calendar
    ([m] from 1 to 12), day 0 being 1 January 1970. *)
Definition days_from_civil (y m d : Z) : Z :=
  let y' := if m <=? 2 then y - 1 else y in
  let era := y' / 400 in
  let yoe := y' - era * 400 in
  let mp := if 2 <? m then m - 3 else m + 9 in
  let doy := (153 * mp + 2) / 5 + d - 1 in
  let doe := yoe * 365 + yoe / 4 - yoe / 100 + doy in
  era * 146097 + doe - 719468.

(** Civil date (year, month 1..12, day) of a day number. *)
Definition civil_from_days (z : Z) : Z * Z * Z :=
  let z' := z + 719468 in
  let era := z' / 146097 in
  let doe := z' - era * 146097 in
  let yoe := (doe - doe / 1460 + doe / 36524 - doe / 146096) / 365 in
  let doy := doe - (365 * yoe + yoe / 4 - yoe / 100) in
  let mp := (5 * doy + 2) / 153 in
  let d := doy - (153 * mp + 2) / 5 + 1 in
  let m := if mp <? 10 then mp + 3 else mp - 9 in
  ((if m <=? 2 then yoe + era * 400 + 1 else yoe + era * 400), m, d).

Definition YearFromTime (t : Z) : Z := fst (fst (civil_from_days (Day t))).
(** Months are numbered from 0 by [getMonth]. *)
Definition MonthFromTime (t : Z) : Z := snd (fst (civil_from_days (Day t))) - 1.
Definition DateFromTime (t : Z) : Z := snd (civil_from_days (Day t)).
Definition WeekDay (t : Z) : Z := (Day t + 4) mod 7.

Definition HourFromTime (t : Z) : Z := (t / 3600000) mod 24.
Definition MinFromTime (t : Z) : Z := (t / 60000) mod 60.
Definition SecFromTime (t : Z) : Z := (t / 1000) mod 60.
Definition msFromTime (t : Z) : Z := t mod 1000.

Definition MakeDay (year month date : Z) : Z :=
  let ym := year + month / 12 in
  let mn := month mod 12 in
  days_from_civil ym (mn + 1) 1 + date - 1.

Definition MakeTime (h m s ms : Z) : Z :=
  h * 3600000 + m * 60000 + s * 1000 + ms.

Definition MakeDate (day time : Z) : Z := day * msPerDay + time.

(** A Date object holds a time value, or NaN (an invalid date). *)
Definition DateValue := option Z.

Definition TimeClip (t : Z) : DateValue :=
  if Z.abs t <=? 8640000000000000 then Some t else None.

Definition is_leap (y : Z) : bool :=
  ((y mod 4 =? 0) && negb (y mod 100 =? 0)) || (y mod 400 =? 0).

Definition DaysInMonth (y m : Z) : Z :=
  if m =? 2 then (if is_leap y then 29 else 28)
  else if (m =? 4) || (m =? 6) || (m =? 9) || (m =? 11) then 30 else 31.

Section Zone.
Variable eng : Engine.

Definition LocalTime (t : Z) : Z := t + LocalTZA eng t true.
Definition UTC (t : Z) : Z := t - LocalTZA eng t false.

(** [Date.prototype.getDate], [getDay], [getMonth]: local-time fields,
    [None] standing for NaN. *)
Definition getDate (d : DateValue) : option Z :=
  option_map (fun t => DateFromTime (LocalTime t)) d.
Definition getDay (d : DateValue) : option Z :=
  option_map (fun t => WeekDay (LocalTime t)) d.
Definition getMonth (d : DateValue) : option Z :=
  option_map (fun t => MonthFromTime (LocalTime t)) d.

(** [Date.prototype.setDate(dt)] for an integral [dt]. *)
Definition setDate (d : DateValue) (dt : Z) : DateValue :=
  match d with
  | None => None
  | Some t0 =>
      let t := LocalTime t0 in
      let newDate :=
        MakeDate (MakeDay (YearFromTime t) (MonthFromTime t) dt)
                 (TimeWithinDay t) in
      TimeClip (UTC newDate)
  end.
End Zone.

(** *** [Date.prototype.toISOString] *)

Definition two (n : Z) : jsstring := JsStr.pad0 2 (JsStr.decimal (Z.to_N n)).

Definition iso_year (y : Z) : jsstring :=
  if (0 <=? y) && (y <=? 9999) then JsStr.pad0 4 (JsStr.decimal (Z.to_N y))
  else (if y <? 0 then js "-" else js "+")
         ++ JsStr.pad0 6 (JsStr.decimal (Z.to_N (Z.abs y))).

Definition toISOString (d : DateValue) : Exn + jsstring :=
  match d with
  | None => inl RangeError
  | Some t =>
      inr (iso_year (YearFromTime t) ++ js "-" ++ two (MonthFromTime t + 1)
           ++ js "-" ++ two (DateFromTime t)
           ++ js "T" ++ two (HourFromTime t) ++ js ":" ++ two (MinFromTime t)
           ++ js ":" ++ two (SecFromTime t)
           ++ js "." ++ JsStr.pad0 3 (JsStr.decimal (Z.to_N (msFromTime t)))
           ++ js "Z")
  end.

(** [s.split(sep)[0]] for a one-unit separator: the part before its first
    occurrence, the whole string when there is none. *)
Fixpoint before (sep : N) (s : jsstring) : jsstring :=
  match s with
  | [] => []
  | c :: s' => if (c =? sep)%N then [] else c :: before sep s'
  end.

(** *** [new Date(string)] for the standard date-time format *)

Definition num2 (a b : N) : option Z :=
  match Json.digit a, Json.digit b with
  | Some x, Some y => Some (Z.of_N (x * 10 + y))
  | _, _ => None
  end.

Definition all_digits (s : jsstring) : option Z :=
  match Json.take_digits s with
  | (ds, []) => Some (Z.of_N (Json.digits_value ds))
  | _ => None
  end.

(** The year: four digits, or a sign and six digits (minus zero excluded). *)
Definition parse_year (s : jsstring) : option (Z * jsstring) :=
  match s with
  | sg :: a :: b :: c :: d :: e :: f :: r =>
      if (sg =? 43)%N || (sg =? 45)%N then
        match all_digits [a; b; c; d; e; f] with
        | Some y =>
            if (sg =? 45)%N then (if y =? 0 then None else Some (- y, r))
            else Some (y, r)
        | None => None
        end
      else match all_digits [sg; a; b; c] with
           | Some y => Some (y, d :: e :: f :: r)
           | None => None
           end
  | a :: b :: c :: d :: r =>
      match all_digits [a; b; c; d] with
      | Some y => Some (y, r)
      | None => None
      end
  | _ => None
  end.

(** An optional [-NN] field, 1 when it is left out. *)
Definition parse_dash2 (s : jsstring) : option (option Z * jsstring) :=
  match s with
  | 45%N :: a :: b :: r =>
      match num2 a b with
      | Some n => Some (Some n, r)
      | None => None
      end
  | _ => Some (None, s)
  end.

(** [THH:mm:ss] up to the end of the string. *)
Definition parse_time (s : jsstring) : option Z :=
  match s with
  | [84; h1; h2; 58; m1; m2; 58; s1; s2]%N =>
      match num2 h1 h2, num2 m1 m2, num2 s1 s2 with
      | Some h, Some m, Some sec =>
          if ((h <=? 23) && (m <=? 59) && (sec <=? 59))
             || ((h =? 24) && (m =? 0) && (sec =? 0))
          then Some (MakeTime h m sec 0) else None
      | _, _, _ => None
      end
  | _ => None
  end.

(** A date (year, year-month or year-month-day) followed by a time without
    a zone offset, all fields in range: the local time value it denotes. *)
Definition parse_local (s : jsstring) : option Z :=
  match parse_year s with
  | None => None
  | Some (y, r1) =>
      match parse_dash2 r1 with
      | None => None
      | Some (om, r2) =>
          match (match om with
                 | None => Some (None, r2)
                 | Some _ => parse_dash2 r2
                 end) with
          | None => None
          | Some (od, r3) =>
              let m := match om with Some m => m | None => 1 end in
              let d := match od with Some d => d | None => 1 end in
              if (1 <=? m) && (m <=? 12) && (1 <=? d) && (d <=? DaysInMonth y m)
              then match parse_time r3 with
                   | Some tm => Some (MakeDate (MakeDay y (m - 1) d) tm)
                   | None => None
                   end
              else None
          end
      end
  end.

(** [new Date(s)] for a string that ends in a time without offset, as
    [formatDate] builds it: the standard format is read as local time;
    any other text is left to the engine's own parser. *)
Definition new_Date_string (eng : Engine) (s : jsstring) : DateValue :=
  match parse_local s with
  | Some lt => TimeClip (UTC eng lt)
  | None =>
      match hostDateParse eng s with
      | Some t => TimeClip t
      | None => None
      end
  end.

End JsDate.

(* ================================================================== *)
(** ** Application state, document and host *)
(* ================================================================== *)

Record Coords := { latitude : JsVal; longitude : JsVal }.

Record WeatherData := {
  temperature : float;
  condition : jsstring;
  waves : jsstring;
  windSpeed : float;
  humidity : float;
  uvIndex : float;
  source : jsstring
}.

Record Cleanup := {
  id : N;
  name : jsstring;
  lat : float;
  lon : float;
  volunteers : N;
  date : jsstring;
  isNext : option bool          (* the property is absent on most entries *)
}.

(** [appState] (part_000 lines 11-21). *)
Record AppState := {
  userLocation : option Coords;           (* null or { latitude, longitude } *)
  weatherData : option WeatherData;
  forecastData : JsVal;
  cleanups : list Cleanup;
  userPreferences : Props
}.

(** What an element shows: the markup the page shipped with, or what the
    script last assigned to its [innerHTML], kept as the values that fill
    the holes of the template. *)
Inductive Content (A : Type) :=
| PageMarkup
| Written (a : A).
Arguments PageMarkup {A}.

Record WeatherCard := {
  wc_icon : jsstring;
  wc_temp : float;              (* Math.round(weatherData.temperature) *)
  wc_tempUnit : jsstring;
  wc_condition : jsstring;
  wc_waves : jsstring;
  wc_windSpeed : float;
  wc_speedUnit : jsstring;
  wc_humidity : float;
  wc_uvIndex : float;
  wc_source : jsstring          (* weatherData.source || 'NEA' *)
}.

Record ForecastCard := {
  fc_date : jsstring;           (* formatDate(date) *)
  fc_icon : jsstring;
  fc_temp : JsVal;
  fc_condition : JsVal;
  fc_minTemp : JsVal;
  fc_humidity : float
}.

(** A marker [div]: its class, the values in its markup, and the event
    its click handler closes over. *)
Record Marker := {
  className : jsstring;
  mk_name : jsstring;
  mk_volunteers : N;
  mk_date : jsstring;
  onclick : Cleanup
}.

Inductive MarkerChild :=
| PageNode (k : nat)            (* a child the page shipped with *)
| MarkerNode (m : Marker).

(** A toast appended to [document.body] by [showNotification]. *)
Record Toast := {
  toast_class : jsstring;
  toast_text : jsstring;
  toast_background : jsstring
}.

(** The cached elements of [DOM] that the modelled functions touch; [None]
    when the page has no such element. *)
Record Document := {
  weatherDisplay : option (Content WeatherCard);
  forecastGrid : option (Content (list ForecastCard));
  mapMarkers : option (list MarkerChild);
  mapSection : bool;             (* is there an element with id 'map'? *)
  toasts : list Toast            (* appended to the body, oldest first *)
}.

Inductive ConsoleEntry :=
| ConsoleLog (text : jsstring)
| ConsoleError (label : jsstring) (e : Exn).

(** What the script has done to its host so far, and how many answers it
    has drawn from each source of outside input. *)
Record HostState := {
  localStorage : list (jsstring * jsstring);
  console : list ConsoleEntry;   (* newest first *)
  positionRequests : nat;        (* calls of getCurrentPosition *)
  mapScrolls : nat;              (* scrollIntoView on the map section *)
  fetches : nat;
  randoms : nat;
  clockReads : nat
}.

Record State := {
  appState : AppState;
  DOM : Document;
  host : HostState
}.

Inductive FetchOutcome :=
| NetworkFailure                          (* the promise rejects *)
| Response (ok : bool) (body : jsstring).

(** The outside world: whether the platform offers geolocation, and the
    answers to the n-th [fetch], [Math.random()] and [new Date()]. *)
Record World := {
  geolocation : bool;
  fetchOracle : nat -> jsstring -> FetchOutcome;
  randomOracle : nat -> float;
  clockOracle : nat -> Z
}.

(** *** Field updates *)

Definition with_app (f : AppState -> AppState) (s : State) : State :=
  {| appState := f (appState s); DOM := DOM s; host := host s |}.
Definition with_dom (f : Document -> Document) (s : State) : State :=
  {| appState := appState s; DOM := f (DOM s); host := host s |}.
Definition with_host (f : HostState -> HostState) (s : State) : State :=
  {| appState := appState s; DOM := DOM s; host := f (host s) |}.

Definition set_userLocation (c : option Coords) (a : AppState) : AppState :=
  {| userLocation := c; weatherData := weatherData a;
     forecastData := forecastData a; cleanups := cleanups a;
     userPreferences := userPreferences a |}.
Definition set_weatherData (x : option WeatherData) (a : AppState) : AppState :=
  {| userLocation := userLocation a; weatherData := x;
     forecastData := forecastData a; cleanups := cleanups a;
     userPreferences := userPreferences a |}.
Definition set_forecastData (x : JsVal) (a : AppState) : AppState :=
  {| userLocation := userLocation a; weatherData := weatherData a;
     forecastData := x; cleanups := cleanups a;
     userPreferences := userPreferences a |}.
Definition set_cleanups (x : list Cleanup) (a : AppState) : AppState :=
  {| userLocation := userLocation a; weatherData := weatherData a;
     forecastData := forecastData a; cleanups := x;
     userPreferences := userPreferences a |}.
Definition set_userPreferences (x : Props) (a : AppState) : AppState :=
  {| userLocation := userLocation a; weatherData := weatherData a;
     forecastData := forecastData a; cleanups := cleanups a;
     userPreferences := x |}.

Definition set_weatherDisplay (x : option (Content WeatherCard)) (d : Document) :=
  {| weatherDisplay := x; forecastGrid := forecastGrid d;
     mapMarkers := mapMarkers d; mapSection := mapSection d;
     toasts := toasts d |}.
Definition set_forecastGrid (x : option (Content (list ForecastCard))) (d : Document) :=
  {| weatherDisplay := weatherDisplay d; forecastGrid := x;
     mapMarkers := mapMarkers d; mapSection := mapSection d;
     toasts := toasts d |}.
Definition set_mapMarkers (x : option (list MarkerChild)) (d : Document) :=
  {| weatherDisplay := weatherDisplay d; forecastGrid := forecastGrid d;
     mapMarkers := x; mapSection := mapSection d; toasts := toasts d |}.
Definition set_toasts (x : list Toast) (d : Document) :=
  {| weatherDisplay := weatherDisplay d; forecastGrid := forecastGrid d;
     mapMarkers := mapMarkers d; mapSection := mapSection d; toasts := x |}.

Definition set_console (x : list ConsoleEntry) (h : HostState) :=
  {| localStorage := localStorage h; console := x;
     positionRequests := positionRequests h; mapScrolls := mapScrolls h;
     fetches := fetches h; randoms := randoms h; clockReads := clockReads h |}.
Definition set_localStorage (x : list (jsstring * jsstring)) (h : HostState) :=
  {| localStorage := x; console := console h;
     positionRequests := positionRequests h; mapScrolls := mapScrolls h;
     fetches := fetches h; randoms := randoms h; clockReads := clockReads h |}.
Definition set_positionRequests (x : nat) (h : HostState) :=
  {| localStorage := localStorage h; console := console h;
     positionRequests := x; mapScrolls := mapScrolls h;
     fetches := fetches h; randoms := randoms h; clockReads := clockReads h |}.
Definition set_mapScrolls (x : nat) (h : HostState) :=
  {| localStorage := localStorage h; console := console h;
     positionRequests := positionRequests h; mapScrolls := x;
     fetches := fetches h; randoms := randoms h; clockReads := clockReads h |}.
Definition set_fetches (x : nat) (h : HostState) :=
  {| localStorage := localStorage h; console := console h;
     positionRequests := positionRequests h; mapScrolls := mapScrolls h;
     fetches := x; randoms := randoms h; clockReads := clockReads h |}.
Definition set_randoms (x : nat) (h : HostState) :=
  {| localStorage := localStorage h; console := console h;
     positionRequests := positionRequests h; mapScrolls := mapScrolls h;
     fetches := fetches h; randoms := x; clockReads := clockReads h |}.
Definition set_clockReads (x : nat) (h : HostState) :=
  {| localStorage := localStorage h; console := console h;
     positionRequests := positionRequests h; mapScrolls := mapScrolls h;
     fetches := fetches h; randoms := randoms h; clockReads := x |}.

(** *** Computations: state passing with exceptions *)

Definition M (A : Type) : Type := State -> (Exn + A) * State.

Definition ret {A} (a : A) : M A := fun s => (inr a, s).
Definition throw {A} (e : Exn) : M A := fun s => (inl e, s).
Definition bind {A B} (m : M A) (k : A -> M B) : M B :=
  fun s => match m s with
           | (inr a, s') => k a s'
           | (inl e, s') => (inl e, s')
           end.
(** [try { m } catch (error) { h error }]: the state changes made before
    the exception stay. *)
Definition try_catch {A} (m : M A) (h : Exn -> M A) : M A :=
  fun s => match m s with
           | (inr a, s') => (inr a, s')
           | (inl e, s') => h e s'
           end.
Definition lift {A} (r : Exn + A) : M A := fun s => (r, s).
Definition modify (f : State -> State) : M unit := fun s => (inr tt, f s).
Definition gets {A} (f : State -> A) : M A := fun s => (inr (f s), s).
Definition when (b : bool) (m : M unit) : M unit := if b then m else ret tt.

Declare Scope js_scope.
Delimit Scope js_scope with js.
Notation "x <- m ;; k" := (bind m (fun x => k))
  (at level 61, m at next level, right associativity) : js_scope.
Notation "m ;;; k" := (bind m (fun _ => k))
  (at level 61, right associativity) : js_scope.
Local Open Scope js_scope.

(* ================================================================== *)
(** ** The script (src/unnamed/part_000; js/app.js has the same text for
       the functions outside the weather section) *)
(* ================================================================== *)

Section Script.
Variable eng : Engine.
Variable world : World.

(** *** Host calls *)

(** [localStorage.getItem(key)]: [None] is [null]. *)
Fixpoint getItem (store : list (jsstring * jsstring)) (key : jsstring)
  : option jsstring :=
  match store with
  | [] => None
  | (k, v) :: rest => if JsStr.eqb k key then Some v else getItem rest key
  end.

Definition Math_random : M float := fun s =>
  (inr (randomOracle world (randoms (host s))),
   with_host (fun h => set_randoms (S (randoms h)) h) s).

(** [new Date()]: the current time value. *)
Definition new_Date : M JsDate.DateValue := fun s =>
  (inr (Some (clockOracle world (clockReads (host s)))),
   with_host (fun h => set_clockReads (S (clockReads h)) h) s).

(** [await fetch(url)]: a network failure rejects with TypeError. *)
Definition fetch (url : jsstring) : M (bool * jsstring) := fun s =>
  let s' := with_host (fun h => set_fetches (S (fetches h)) h) s in
  match fetchOracle world (fetches (host s)) url with
  | NetworkFailure => (inl TypeError, s')
  | Response ok body => (inr (ok, body), s')
  end.

Definition console_error (label : jsstring) (e : Exn) : M unit :=
  modify (with_host (fun h => set_console (ConsoleError label e :: console h) h)).
Definition console_log (text : jsstring) : M unit :=
  modify (with_host (fun h => set_console (ConsoleLog text :: console h) h)).

(** A call of an async function whose promise nobody awaits: a rejection
    is dropped, what it did to the state stays. *)
Definition detached (m : M unit) : M unit :=
  fun s => (inr tt, snd (m s)).

(** *** showNotification (lines 488-513).  The toast is appended to the
    body; its timed removal is outside the model. *)
Definition showNotification (message type : jsstring) : M unit :=
  modify (with_dom (fun d =>
    set_toasts
      (toasts d ++
       [{| toast_class := js "notification notification-" ++ type;
           toast_text := message;
           toast_background :=
             if JsStr.eqb type (js "error") then js "#ff4757"
             else if JsStr.eqb type (js "success") then js "#06d6a0"
             else js "#00B4D8" |}]) d)).

(** *** getWeatherIcon (lines 317-327) *)
Definition weatherIcon (condition_lower : jsstring) : jsstring :=
  let has := JsStr.includes condition_lower in
  if has (js "sunny") || has (js "clear") then js "☀️"
  else if has (js "cloudy") || has (js "cloud") then js "☁️"
  else if has (js "rain") || has (js "shower") then js "🌧️"
  else if has (js "thunder") || has (js "storm") then js "⛈️"
  else if has (js "wind") then js "💨"
  else if has (js "fog") || has (js "haze") then js "🌫️"
  else js "🌤️".

(** [(condition || '').toLowerCase()] exists on strings only. *)
Definition getWeatherIcon (condition : JsVal) : Exn + jsstring :=
  match Js.or_else condition (VStr []) with
  | VStr s => inr (weatherIcon (toLowerCase eng s))
  | _ => inl TypeError
  end.

(** *** getDateString (lines 329-333) *)

(** What the body computes once [new Date()] has read the clock. *)
Definition dateStringAt (now : Z) (daysFromNow : Z) : Exn + jsstring :=
  let date := Some now in
  let date' :=
    match JsDate.getDate eng date with
    | Some n => JsDate.setDate eng date (n + daysFromNow)
    | None => None
    end in
  match JsDate.toISOString date' with
  | inl e => inl e
  | inr iso => inr (JsDate.before 84 iso)
  end.

Definition getDateString (daysFromNow : Z) : M jsstring :=
  date <- new_Date ;;
  match date with
  | Some now => lift (dateStringAt now daysFromNow)
  | None => throw RangeError
  end.

(** *** formatDate (lines 335-347), for a date that has a string
    ([Js.convertible]): [dateStr + 'T00:00:00'] is the string of [dateStr]
    followed by the literal, and nothing in the [try] block raises.  For a
    date without a string the concatenation raises and the [catch] branch
    returns the date itself; the one caller, the template of
    displayForecast, then raises when it converts it ([forecastCard]). *)
Definition days : list jsstring :=
  map js ["Sun"; "Mon"; "Tue"; "Wed"; "Thu"; "Fri"; "Sat"]%string.
Definition months : list jsstring :=
  map js ["Jan"; "Feb"; "Mar"; "Apr"; "May"; "Jun";
          "Jul"; "Aug"; "Sep"; "Oct"; "Nov"; "Dec"]%string.

(** [names[i]] inside a template literal: a missing entry reads
    [undefined]. *)
Definition name_at (names : list jsstring) (i : option Z) : jsstring :=
  match i with
  | Some z =>
      if (z <? 0)%Z then js "undefined"
      else nth (Z.to_nat z) names (js "undefined")
  | None => js "undefined"
  end.

Definition formatDate (dateStr : JsVal) : jsstring :=
  if negb (Js.truthy dateStr) then js "Today"
  else
    let date :=
      JsDate.new_Date_string eng (Js.ToString eng dateStr ++ js "T00:00:00") in
    name_at days (JsDate.getDay eng date) ++ js " "
    ++ match JsDate.getDate eng date with
       | Some n => JsStr.decimal (Z.to_N n)
       | None => js "NaN"
       end
    ++ js " " ++ name_at months (JsDate.getMonth eng date).

(** *** updateWeatherDisplay (lines 264-283) *)
Definition updateWeatherDisplay (wd : WeatherData) : M unit :=
  prefs <- gets (fun s => userPreferences (appState s)) ;;
  units <- lift (Js.Get (VObj prefs) (js "units")) ;;
  let tempUnit := if Js.strict_eq_str units (js "metric") then js "°C" else js "°F" in
  let speedUnit := if Js.strict_eq_str units (js "metric") then js "km/h" else js "mph" in
  el <- gets (fun s => weatherDisplay (DOM s)) ;;
  match el with
  | None => ret tt
  | Some _ =>
      icon <- lift (getWeatherIcon (VStr (condition wd))) ;;
      modify (with_dom (set_weatherDisplay (Some (Written
        {| wc_icon := icon;
           wc_temp := JsNum.Math_round (temperature wd);
           wc_tempUnit := tempUnit;
           wc_condition := condition wd;
           wc_waves := waves wd;
           wc_windSpeed := windSpeed wd;
           wc_speedUnit := speedUnit;
           wc_humidity := humidity wd;
           wc_uvIndex := uvIndex wd;
           wc_source := match source wd with
                        | [] => js "NEA"
                        | _ => source wd
                        end |}))))
  end.

(** *** displayForecast (lines 285-315) *)

(** [x || fallback], the fallback computed only when [x] is falsy. *)
Definition or_compute (x : JsVal) (fallback : M JsVal) : M JsVal :=
  if Js.truthy x then ret x else fallback.

Definition random_condition : M JsVal :=
  r <- Math_random ;;
  ret (match JsNum.to_Z (JsNum.Math_floor (r * 3)%float) with
       | Some 0%Z => VStr (js "Sunny")
       | Some 1%Z => VStr (js "Partly Cloudy")
       | Some 2%Z => VStr (js "Thundery Showers")
       | _ => VUndefined
       end).

(** The body of the [forEach] callback: one card.  The template literal
    converts what it shows to strings, in the order of the text: the result
    of formatDate (the date itself, by the [catch] branch, when the date
    has no string), the temperature and the low; icon and condition are
    strings (or [undefined]) by then.  The card keeps the values shown. *)
Definition forecastCard (day : JsVal) (index : Z) : M ForecastCard :=
  d0 <- lift (Js.Get day (js "date")) ;;
  date <- or_compute d0 (s <- getDateString index ;; ret (VStr s)) ;;
  h0 <- lift (Js.Get day (js "high")) ;;
  temp <- or_compute h0
            (r <- Math_random ;; ret (VNum (JsNum.Math_round (25 + r * 5)%float))) ;;
  l0 <- lift (Js.Get day (js "low")) ;;
  minTemp <- or_compute l0
               (r <- Math_random ;; ret (VNum (JsNum.Math_round (20 + r * 3)%float))) ;;
  c0 <- lift (Js.Get day (js "forecast")) ;;
  condition <- or_compute c0 random_condition ;;
  icon <- lift (getWeatherIcon condition) ;;
  lift (Js.template eng date) ;;;
  lift (Js.template eng temp) ;;;
  lift (Js.template eng minTemp) ;;;
  r <- Math_random ;;
  ret {| fc_date := formatDate date;
         fc_icon := icon;
         fc_temp := temp;
         fc_condition := condition;
         fc_minTemp := minTemp;
         fc_humidity := JsNum.Math_round (60 + r * 20)%float |}.

Fixpoint forecastCards (daysList : list JsVal) (index : Z) : M (list ForecastCard) :=
  match daysList with
  | [] => ret []
  | day :: rest =>
      card <- forecastCard day index ;;
      cards <- forecastCards rest (index + 1) ;;
      ret (card :: cards)
  end.

Definition displayForecast (forecast : JsVal) : M unit :=
  grid <- gets (fun s => forecastGrid (DOM s)) ;;
  match grid with
  | None => ret tt
  | Some _ =>
      if negb (Js.truthy forecast) then ret tt
      else
        let forecasts := match forecast with VArr l => l | _ => [] end in
        cards <- forecastCards (firstn 4 forecasts) 0 ;;
        modify (with_dom (set_forecastGrid (Some (Written cards))))
  end.

(** *** loadMockWeatherData (lines 228-254) *)
Definition mockWeatherData : WeatherData :=
  {| temperature := 22;
     condition := js "Sunny";
     waves := js "1-1.5m";
     windSpeed := 13;
     humidity := 65;
     uvIndex := 7;
     source := js "Mock" |}.

Definition forecastEntry (d : jsstring) (high low : float) (forecast : jsstring)
  : JsVal :=
  VObj [(js "date", VStr d); (js "high", VNum high); (js "low", VNum low);
        (js "forecast", VStr forecast)].

Definition mockForecast (d0 d1 d2 d3 : jsstring) : JsVal :=
  VArr [forecastEntry d0 32 24 (js "Sunny");
        forecastEntry d1 30 23 (js "Partly Cloudy");
        forecastEntry d2 28 22 (js "Thundery Showers");
        forecastEntry d3 31 24 (js "Sunny")].

Definition loadMockWeatherData : M unit :=
  showNotification (js "⚠️ Using mock weather data (API unavailable)") (js "info") ;;;
  modify (with_app (set_weatherData (Some mockWeatherData))) ;;;
  updateWeatherDisplay mockWeatherData ;;;
  d0 <- getDateString 0 ;;
  d1 <- getDateString 1 ;;
  d2 <- getDateString 2 ;;
  d3 <- getDateString 3 ;;
  displayForecast (mockForecast d0 d1 d2 d3).

(** *** fetchNEAWeather (lines 163-203) *)

(** The two endpoints, as the literals in the calls of [fetch]. *)
Definition weatherUrl : jsstring :=
  js "https://api.data.gov.sg/v1/environment/air-temperature".
Definition forecastUrl : jsstring :=
  js "https://api.data.gov.sg/v1/environment/4-day-weather-forecast".

(** [readings.reduce((sum, r) => sum + r.value, 0)]. *)
Fixpoint sum_values (readings : list JsVal) (sum : JsVal) : Exn + JsVal :=
  match readings with
  | [] => inr sum
  | r :: rest =>
      match Js.Get r (js "value") with
      | inl e => inl e
      | inr v =>
          match Js.add eng sum v with
          | inl e => inl e
          | inr sum' => sum_values rest sum'
          end
      end
  end.

Definition stationBlock (data : JsVal) : M unit :=
  metadata <- lift (Js.Get data (js "metadata")) ;;
  if negb (Js.truthy metadata) then ret tt else
  stations <- lift (Js.Get metadata (js "stations")) ;;
  if negb (Js.truthy stations) then ret tt else
  len <- lift (Js.Get stations (js "length")) ;;
  positive <- lift (Js.gt_zero eng len) ;;
  if negb positive then ret tt else
  station <- lift (Js.GetIndex stations 0) ;;
  loc1 <- lift (Js.Get station (js "location")) ;;
  la <- lift (Js.Get loc1 (js "latitude")) ;;
  loc2 <- lift (Js.Get station (js "location")) ;;
  lo <- lift (Js.Get loc2 (js "longitude")) ;;
  modify (with_app (set_userLocation (Some {| latitude := la; longitude := lo |}))).

Definition readingsBlock (data : JsVal) : M unit :=
  items <- lift (Js.Get data (js "items")) ;;
  if negb (Js.truthy items) then ret tt else
  len <- lift (Js.Get items (js "length")) ;;
  positive <- lift (Js.gt_zero eng len) ;;
  if negb positive then ret tt else
  item0 <- lift (Js.GetIndex items 0) ;;
  readings <- lift (Js.Get item0 (js "readings")) ;;
  match readings with
  | VArr l =>
      sum <- lift (sum_values l (VNum 0)) ;;
      let avgTemp := (Js.ToNumber eng sum / JsNum.of_nat (List.length l))%float in
      let weatherData :=
        {| temperature := (JsNum.Math_round (avgTemp * 10) / 10)%float;
           condition := js "Partly Cloudy";
           waves := js "0.8-1.2m";
           windSpeed := 12;
           humidity := 70;
           uvIndex := 6;
           source := js "NEA" |} in
      modify (with_app (set_weatherData (Some weatherData))) ;;;
      updateWeatherDisplay weatherData ;;;
      showNotification (js "✅ Weather data loaded from NEA") (js "success")
  | _ => throw TypeError       (* no [reduce] to call *)
  end.

Definition fetchNEAWeather : M unit :=
  try_catch
    (response <- fetch weatherUrl ;;
     let (ok, body) := response in
     if negb ok then throw (ErrorMsg (js "NEA API error")) else
     data <- lift (Json.parse body) ;;
     stationBlock data ;;;
     readingsBlock data)
    (fun error =>
       console_error (js "NEA API fetch error:") error ;;;
       throw error).

(** *** fetchNEAForecast (lines 205-226) *)
Definition fetchNEAForecast : M unit :=
  try_catch
    (response <- fetch forecastUrl ;;
     let (ok, body) := response in
     if negb ok then throw (ErrorMsg (js "NEA Forecast API error")) else
     data <- lift (Json.parse body) ;;
     items <- lift (Js.Get data (js "items")) ;;
     if negb (Js.truthy items) then ret tt else
     len <- lift (Js.Get items (js "length")) ;;
     positive <- lift (Js.gt_zero eng len) ;;
     if negb positive then ret tt else
     item0 <- lift (Js.GetIndex items 0) ;;
     forecast <- lift (Js.Get item0 (js "forecasts")) ;;
     modify (with_app (set_forecastData forecast)) ;;;
     displayForecast forecast)
    (fun error =>
       console_error (js "NEA Forecast API error:") error ;;;
       throw error).

(** *** loadWeatherData (lines 151-161) *)
Definition loadWeatherData : M unit :=
  try_catch
    (showNotification (js "🌤️ Loading real-time weather data from NEA...") (js "info") ;;;
     fetchNEAWeather ;;;
     fetchNEAForecast)
    (fun error =>
       console_error (js "Error loading weather:") error ;;;
       loadMockWeatherData).

(** *** fetchWeatherForLocation (lines 256-262) *)
Definition fetchWeatherForLocation (lat lon : float) : M unit :=
  console_log (js "Fetching weather for " ++ NumberToString eng lat
               ++ js ", " ++ NumberToString eng lon) ;;;
  fetchNEAWeather.

(** *** Map functions (lines 364-407) *)
Definition generateMockCleanups : list Cleanup :=
  [ {| id := 0; name := js "Pasir Ris Beach"; lat := 1.381497; lon := 103.955574;
       volunteers := 52; date := js "2025-12-02"; isNext := Some true |};
    {| id := 1; name := js "Malibu Beach Cleanup"; lat := 34.0195; lon := -118.6814;
       volunteers := 42; date := js "2025-12-05"; isNext := None |};
    {| id := 2; name := js "Santa Monica Pier Cleanup"; lat := 34.0195; lon := -118.4965;
       volunteers := 28; date := js "2025-12-06"; isNext := None |};
    {| id := 3; name := js "Huntington Beach Drive"; lat := 33.8815; lon := -118.0023;
       volunteers := 35; date := js "2025-12-07"; isNext := None |};
    {| id := 4; name := js "Laguna Beach Rally"; lat := 33.5427; lon := -117.7827;
       volunteers := 18; date := js "2025-12-08"; isNext := None |} ].

(** The [div] built for one event in the [forEach] of updateMapMarkers. *)
Definition markerFor (cleanup : Cleanup) : Marker :=
  {| className := js "map-marker";
     mk_name := name cleanup;
     mk_volunteers := volunteers cleanup;
     mk_date := date cleanup;
     onclick := cleanup |}.

(** updateMapMarkers (lines 383-402); its two parameters are not used by
    the body. *)
Definition updateMapMarkers (centerLat centerLon : option float) : M unit :=
  el <- gets (fun s => mapMarkers (DOM s)) ;;
  match el with
  | None => ret tt
  | Some _ =>
      modify (with_dom (set_mapMarkers (Some []))) ;;;
      evs <- gets (fun s => cleanups (appState s)) ;;
      fold_left
        (fun (acc : M unit) cleanup =>
           acc ;;;
           modify (with_dom (fun d =>
             set_mapMarkers
               (option_map (fun ch => ch ++ [MarkerNode (markerFor cleanup)])
                           (mapMarkers d)) d)))
        evs (ret tt)
  end.

Definition showCleanupDetails (cleanup : Cleanup) : M unit :=
  showNotification
    (js "🏄 " ++ name cleanup ++ js " - " ++ JsStr.decimal (volunteers cleanup)
     ++ js " volunteers joining!")
    (js "success").

(** *** Location (lines 111-149) *)
Definition handleLocationSuccess (lat lon : float) : M unit :=
  showNotification
    (js "📍 Found you at " ++ toFixed eng lat 2 ++ js ", " ++ toFixed eng lon 2)
    (js "success") ;;;
  updateMapMarkers (Some lat) (Some lon) ;;;
  detached (fetchWeatherForLocation lat lon) ;;;
  present <- gets (fun s => mapSection (DOM s)) ;;
  when present
    (modify (with_host (fun h => set_mapScrolls (S (mapScrolls h)) h))).




(** The success callback handed to [getCurrentPosition]. *)
Definition positionCallback (lat lon : float) : M unit :=
  modify (with_app (set_userLocation
            (Some {| latitude := VNum lat; longitude := VNum lon |}))) ;;;
  handleLocationSuccess lat lon.

(** handleLocateUser (lines 111-129).  The request is recorded; the
    platform answers it later by calling [positionCallback] or
    [handleLocationError]. *)
Definition handleLocateUser : M unit :=
  if negb (geolocation world) then
    showNotification (js "Geolocation not supported") (js "error")
  else
    showNotification (js "📍 Finding your location...") (js "info") ;;;
    modify (with_host (fun h => set_positionRequests (S (positionRequests h)) h)).

(** *** isValidEmail (lines 440-443): [/^[^\s@]+@[^\s@]+\.[^\s@]+$/] *)
Definition emailRegex : RegExp.Pattern :=
  let part := RegExp.RPlus (RegExp.RClass true [RegExp.CSpace; RegExp.CChar 64]) in
  {| RegExp.anchored_start := true;
     RegExp.body :=
       RegExp.RSeq part
         (RegExp.RSeq (RegExp.RChar 64)
            (RegExp.RSeq part (RegExp.RSeq (RegExp.RChar 46) part)));
     RegExp.anchored_end := true |}.

Definition isValidEmail (email : jsstring) : bool :=
  RegExp.test emailRegex email.

(** *** loadUserPreferences (lines 515-520) *)
Definition loadUserPreferences : M unit :=
  saved <- gets (fun s => getItem (localStorage (host s)) (js "appPreferences")) ;;
  match saved with
  | Some (c :: text) =>
      prefs <- gets (fun s => userPreferences (appState s)) ;;
      parsed <- lift (Json.parse (c :: text)) ;;
      modify (with_app (set_userPreferences (Js.spread prefs parsed)))
  | _ => ret tt
  end.

End Script.

(** The state the script starts in: [appState] as declared, the page as
    shipped (each cached element present or not), nothing done yet. *)
Definition defaultPreferences : Props :=
  [(js "units", VStr (js "metric"));
   (js "notifications", VBool true);
   (js "darkMode", VBool false)].

Definition initialAppState : AppState :=
  {| userLocation := None; weatherData := None; forecastData := VNull;
     cleanups := []; userPreferences := defaultPreferences |}.

Definition initialState (hasWeather hasGrid hasMarkers hasMap : bool)
    (stored : list (jsstring * jsstring)) : State :=
  {| appState := initialAppState;
     DOM := {| weatherDisplay := if hasWeather then Some PageMarkup else None;
               forecastGrid := if hasGrid then Some PageMarkup else None;
               mapMarkers := if hasMarkers then Some [] else None;
               mapSection := hasMap;
               toasts := [] |};
     host := {| localStorage := stored; console := [];
                positionRequests := 0; mapScrolls := 0;
                fetches := 0; randoms := 0; clockReads := 0 |} |}.

(* ================================================================== *)
(** ** Definitions used to state the properties *)
(* ================================================================== *)

(** An engine in a zone with a fixed offset from UTC (in ms).  The
    built-ins left open in [Engine] get plain stand-ins: integers print in
    decimal, ASCII letters are lowered. *)
Definition fixedZoneEngine (offset : Z) : Engine :=
  {| NumberToString := fun x =>
       match JsNum.to_Z x with
       | Some z => (if (z <? 0)%Z then js "-" else []) ++ JsStr.decimal (Z.to_N (Z.abs z))
       | None => js "NaN"
       end;
     StringToNumber := fun s =>
       match Json.number_of_lexeme s with Some x => x | None => nan end;
     toLowerCase :=
       map (fun c => if ((65 <=? c) && (c <=? 90))%N then (c + 32)%N else c);
     toFixed := fun x _ =>
       match JsNum.to_Z x with
       | Some z => (if (z <? 0)%Z then js "-" else []) ++ JsStr.decimal (Z.to_N (Z.abs z)) ++ js ".00"
       | None => js "NaN"
       end;
     LocalTZA := fun _ _ => offset;
     hostDateParse := fun _ => None |}.

(** Singapore: UTC+8 all year. *)
Definition sgEngine : Engine := fixedZoneEngine 28800000.

(** A world without network or geolocation, at 2025-12-02T01:00:00.123Z. *)
Definition offlineWorld : World :=
  {| geolocation := false;
     fetchOracle := fun _ _ => NetworkFailure;
     randomOracle := fun _ => 0.5%float;
     clockOracle := fun _ => 1764637200123%Z |}.

(** The toast [showNotification(message, type)] appends. *)
Definition toastOf (message type : jsstring) : Toast :=
  {| toast_class := js "notification notification-" ++ type;
     toast_text := message;
     toast_background :=
       if JsStr.eqb type (js "error") then js "#ff4757"
       else if JsStr.eqb type (js "success") then js "#06d6a0"
       else js "#00B4D8" |}.

(** The elements [displayForecast] iterates over. *)
Definition elements_of (forecast : JsVal) : list JsVal :=
  match forecast with VArr l => l | _ => [] end.

(** The children updateMapMarkers builds for an event list. *)
Definition markersOf (evs : list Cleanup) : list MarkerChild :=
  map (fun c => MarkerNode (markerFor c)) evs.

Definition put_markers (ch : list MarkerChild) (s : State) : State :=
  with_dom (set_mapMarkers (Some ch)) s.

Definition put_preferences (p : Props) (s : State) : State :=
  with_app (set_userPreferences p) s.

Definition storageKey : jsstring := js "appPreferences".

(** The same state over another content of the storage. *)
Definition with_storage (stored : list (jsstring * jsstring)) (s : State) : State :=
  with_host (set_localStorage stored) s.

(** The page as shipped, every cached element present, nothing stored. *)
Definition freshPage : State := initialState true true true true [].

Definition preferenceKeys : list jsstring :=
  [js "units"; js "notifications"; js "darkMode"].

(** Local midnight at the start of a civil date, as a local time value. *)
Definition localMidnight (y m d : Z) : Z :=
  JsDate.MakeDate (JsDate.MakeDay y (m - 1) d) 0.

(** The zone gives the local time [lt] an instant, and that instant falls
    on the same local day (true of every local time a zone does not skip,
    and of a skipped one that the zone moves forward within the day). *)
Definition zone_keeps_day (eng : Engine) (lt : Z) : Prop :=
  match JsDate.TimeClip (JsDate.UTC eng lt) with
  | Some u => JsDate.Day (JsDate.LocalTime eng u) = JsDate.Day lt
  | None => False
  end.

Definition tick_clock (s : State) : State :=
  with_host (fun h => set_clockReads (S (clockReads h)) h) s.
Definition tick_fetch (s : State) : State :=
  with_host (fun h => set_fetches (S (fetches h)) h) s.

(** The [units] preference as updateWeatherDisplay reads it. *)
Definition unitsOf (prefs : Props) : JsVal :=
  match Js.obj_get prefs (js "units") with
  | Some x => x
  | None => VUndefined
  end.

(** The card updateWeatherDisplay writes for a weather record. *)
Definition weatherCardOf (eng : Engine) (prefs : Props) (wd : WeatherData)
  : WeatherCard :=
  {| wc_icon := weatherIcon (toLowerCase eng (condition wd));
     wc_temp := JsNum.Math_round (temperature wd);
     wc_tempUnit :=
       if Js.strict_eq_str (unitsOf prefs) (js "metric") then js "°C" else js "°F";
     wc_condition := condition wd;
     wc_waves := waves wd;
     wc_windSpeed := windSpeed wd;
     wc_speedUnit :=
       if Js.strict_eq_str (unitsOf prefs) (js "metric") then js "km/h" else js "mph";
     wc_humidity := humidity wd;
     wc_uvIndex := uvIndex wd;
     wc_source := match source wd with [] => js "NEA" | _ => source wd end |}.

(** The state after updateWeatherDisplay. *)
Definition show_weather (eng : Engine) (wd : WeatherData) (s : State) : State :=
  match weatherDisplay (DOM s) with
  | None => s
  | Some _ =>
      with_dom (set_weatherDisplay
        (Some (Written (weatherCardOf eng (userPreferences (appState s)) wd)))) s
  end.



(** A fetch fails: the network fails, the status is not a success, or the
    body is not JSON. *)
Definition fetch_fails (o : FetchOutcome) : bool :=
  match o with
  | NetworkFailure => true
  | Response ok body =>
      negb ok || match Json.parse body with inl _ => true | inr _ => false end
  end.

(** Observations of the state. *)
Definition fetchCount (s : State) : nat := fetches (host s).
Definition preferences (s : State) : Props := userPreferences (appState s).
Definition shownWeather (s : State) : option (Content WeatherCard) :=
  weatherDisplay (DOM s).
Definition hasDisplay (s : State) : bool :=
  match weatherDisplay (DOM s) with Some _ => true | None => false end.

(** The language of a regular expression: the sequences it denotes. *)
Inductive lang : RegExp.Re -> jsstring -> Prop :=
| L_eps : lang RegExp.REps []
| L_chr (c : N) : lang (RegExp.RChar c) [c]
| L_any (c : N) : lang RegExp.RAny [c]
| L_class (n : bool) (items : list RegExp.ClassItem) (c : N) :
    RegExp.class_has n items c = true -> lang (RegExp.RClass n items) [c]
| L_seq (a b : RegExp.Re) (s1 s2 : jsstring) :
    lang a s1 -> lang b s2 -> lang (RegExp.RSeq a b) (s1 ++ s2)
| L_alt_l (a b : RegExp.Re) (s : jsstring) : lang a s -> lang (RegExp.RAlt a b) s
| L_alt_r (a b : RegExp.Re) (s : jsstring) : lang b s -> lang (RegExp.RAlt a b) s
| L_star_nil (a : RegExp.Re) : lang (RegExp.RStar a) []
| L_star_cons (a : RegExp.Re) (s1 s2 : jsstring) :
    lang a s1 -> lang (RegExp.RStar a) s2 -> lang (RegExp.RStar a) (s1 ++ s2).

(** A code unit an address part may hold: no white space, no [@]. *)
Definition part_unit (c : N) : Prop :=
  RegExp.is_space c = false /\ c <> 64%N.

(** A non-empty run of such code units. *)
Definition address_part (p : jsstring) : Prop :=
  p <> [] /\ Forall part_unit p.

(** *** The click listener of a marker (part_000 line 399): it shows the
    details of the event the marker was built for. *)
Definition clickMarker (m : Marker) : M unit :=
  showCleanupDetails (onclick m).

(** A marker and the event it stands for. *)
Definition marker_of_event (child : MarkerChild) (ev : Cleanup) : Prop :=
  exists m,
    child = MarkerNode m
    /\ className m = js "map-marker"
    /\ mk_name m = name ev /\ mk_volunteers m = volunteers ev /\ mk_date m = date ev
    /\ forall s, clickMarker m s
         = showNotification
             (js "🏄 " ++ name ev ++ js " - " ++ JsStr.decimal (volunteers ev)
              ++ js " volunteers joining!")
             (js "success") s.

(** A parsed value that object spread copies nothing from. *)
Definition no_own_properties (v : JsVal) : Prop :=
  match v with
  | VUndefined | VNull | VBool _ | VNum _ => True
  | VStr s => s = []
  | VArr l => l = []
  | VObj p => p = []
  end.

(** The keys of an object, in order. *)
Definition keys (p : Props) : list jsstring := map fst p.











(** The value the callback of displayForecast reads from a field of an
    entry: [undefined] for a field the entry does not have. *)
Definition field (day : JsVal) (k : jsstring) : JsVal :=
  match Js.Get day k with
  | inr v => v
  | inl _ => VUndefined
  end.

(** The card of the entry [day] at index [i]: a field of the entry that is
    truthy is shown as it is; a missing date is the date string [i] days
    from a reading of the clock, a missing temperature or humidity comes
    from a draw of Math.random, a missing condition is one of the three
    in the script; the icon is the icon of the condition shown. *)
Definition card_for (eng : Engine) (world : World) (i : Z)
    (day : JsVal) (card : ForecastCard) : Prop :=
  (if Js.truthy (field day (js "date"))
   then fc_date card = formatDate eng (field day (js "date"))
   else exists n d,
          dateStringAt eng (clockOracle world n) i = inr d
          /\ fc_date card = formatDate eng (VStr d))
  /\ (if Js.truthy (field day (js "high"))
      then fc_temp card = field day (js "high")
      else exists n,
             fc_temp card
             = VNum (JsNum.Math_round (25 + randomOracle world n * 5)%float))
  /\ (if Js.truthy (field day (js "low"))
      then fc_minTemp card = field day (js "low")
      else exists n,
             fc_minTemp card
             = VNum (JsNum.Math_round (20 + randomOracle world n * 3)%float))
  /\ (if Js.truthy (field day (js "forecast"))
      then fc_condition card = field day (js "forecast")
      else In (fc_condition card)
             [VStr (js "Sunny"); VStr (js "Partly Cloudy");
              VStr (js "Thundery Showers"); VUndefined])
  /\ getWeatherIcon eng (fc_condition card) = inr (fc_icon card)
  /\ exists n,
       fc_humidity card = JsNum.Math_round (60 + randomOracle world n * 20)%float.

(** The cards of the entries [l], the first of them at index [i]: one card
    for each entry, in order. *)
Fixpoint cards_for (eng : Engine) (world : World) (i : Z)
    (l : list JsVal) (cards : list ForecastCard) : Prop :=
  match l, cards with
  | [], [] => True
  | day :: l', card :: cards' =>
      card_for eng world i day card /\ cards_for eng world (i + 1) l' cards'
  | _, _ => False
  end.

(** An entry the callback renders without raising: not [undefined] or
    [null] (reading a field of those raises TypeError), with a [forecast]
    field that is missing or a string ([toLowerCase] exists on strings
    only), and with a date, a high and a low that have strings. *)
Definition renders (day : JsVal) : bool :=
  match day with
  | VUndefined | VNull => false
  | _ =>
      match field day (js "forecast") with
      | VStr _ => true
      | v => negb (Js.truthy v)
      end
      && Js.convertible (field day (js "date"))
      && Js.convertible (field day (js "high"))
      && Js.convertible (field day (js "low"))
  end.

(** An entry that brings its own date. *)
Definition has_date (day : JsVal) : bool := Js.truthy (field day (js "date")).

(** Every reading of the clock is a time from which getDateString can
    count 0 to 3 days on (the dates stay in the range of Date). *)
Definition clock_in_range (eng : Engine) (world : World) : Prop :=
  forall n k, (0 <= k <= 3)%Z ->
    exists d, dateStringAt eng (clockOracle world n) k = inr d.

(** A forecast of six entries, each with its four fields. *)
Definition sixDays : JsVal :=
  VArr [forecastEntry (js "2025-12-02") 32 24 (js "Sunny");
        forecastEntry (js "2025-12-03") 30 23 (js "Partly Cloudy");
        forecastEntry (js "2025-12-04") 28 22 (js "Thundery Showers");
        forecastEntry (js "2025-12-05") 31 24 (js "Sunny");
        forecastEntry (js "2025-12-06") 29 23 (js "Windy");
        forecastEntry (js "2025-12-07") 27 21 (js "Hazy")].

(** A computation leaves an observation of the state as it was. *)
Definition keeps {A X : Type} (f : State -> X) (m : M A) : Prop :=
  forall s, f (snd (m s)) = f s.

(* ================================================================== *)
(** ** Checks of the built-ins on known values *)
(* ================================================================== *)

Unset Implicit Arguments.

Lemma eqb_spec (a b : jsstring) : JsStr.eqb a b = true <-> a = b.
Proof.
  revert b; induction a as [|x a IH]; intros [|y b]; simpl;
    try (split; [discriminate | discriminate]); [tauto|].
  rewrite andb_true_iff, N.eqb_eq, IH.
  split; [intros [-> ->]; reflexivity | intros E; inversion E; auto].
Qed.
Lemma eqb_refl (a : jsstring) : JsStr.eqb a a = true.
Proof. apply eqb_spec; reflexivity. Qed.
Example round_22 : JsNum.Math_round 22%float = 22%float.
Proof. vm_compute. reflexivity. Qed.
Example round_half_up : JsNum.Math_round 2.5%float = 3%float.
Proof. vm_compute. reflexivity. Qed.
Example round_neg_half : JsNum.Math_round (-2.5)%float = (-2)%float.
Proof. vm_compute. reflexivity. Qed.
Example round_neg_26 : JsNum.Math_round (-2.6)%float = (-3)%float.
Proof. vm_compute. reflexivity. Qed.
Example round_below_half :
  JsNum.Math_round 0x1.fffffffffffffp-2%float = 0%float.
Proof. vm_compute. reflexivity. Qed.
Example floor_neg : JsNum.Math_floor (-2.5)%float = (-3)%float.
Proof. vm_compute. reflexivity. Qed.
Example decimal_281 : JsNum.of_decimal false 281 (-1) = 28.1%float.
Proof. vm_compute. reflexivity. Qed.
Example decimal_tenth : JsNum.of_decimal false 1 (-1) = 0.1%float.
Proof. vm_compute. reflexivity. Qed.
Example decimal_big : JsNum.of_decimal false 17976931348623157 292 = 0x1.fffffffffffffp+1023%float.
Proof. vm_compute. reflexivity. Qed.
Example decimal_tiny : JsNum.of_decimal false 5 (-324) = 0x1p-1074%float.
Proof. vm_compute. reflexivity. Qed.
Example json_object :
  Json.parse (jsq "{'units': 'imperial', 'n': [1, -2.5e1, true, null]}")
  = inr (VObj [(js "units", VStr (js "imperial"));
               (js "n", VArr [VNum 1; VNum (-25); VBool true; VNull])]).
Proof. vm_compute. reflexivity. Qed.
Example json_escape :
  Json.parse (jsq "'a\u0041\n'") = inr (VStr [97; 65; 10]%N).
Proof. vm_compute. reflexivity. Qed.
Example json_dup_key :
  Json.parse (jsq "{'a':1,'b':2,'a':3}")
  = inr (VObj [(js "a", VNum 3); (js "b", VNum 2)]).
Proof. vm_compute. reflexivity. Qed.
Example json_index_keys :
  Json.parse (jsq "{'b':1,'2':2,'a':3,'1':4,'01':5}")
  = inr (VObj [(js "1", VNum 4); (js "2", VNum 2); (js "b", VNum 1);
               (js "a", VNum 3); (js "01", VNum 5)]).
Proof. vm_compute. reflexivity. Qed.
Example spread_array_keys :
  map fst (Js.spread [(js "units", VStr (js "metric")); (js "darkMode", VBool false)]
             (VArr [VNum 1; VNum 2]))
  = [js "0"; js "1"; js "units"; js "darkMode"].
Proof. vm_compute. reflexivity. Qed.
Example add_number_string :
  Js.add sgEngine (VNum 0) (VStr (js "a")) = inr (VStr (js "0a")).
Proof. vm_compute. reflexivity. Qed.
Example add_no_string :
  Js.add sgEngine (VNum 0) (VObj [(js "toString", VNum 1)]) = inl TypeError.
Proof. vm_compute. reflexivity. Qed.
Example template_object :
  Js.template sgEngine (VArr [VNum 1; VNull; VObj []]) = inr (js "1,,[object Object]").
Proof. vm_compute. reflexivity. Qed.
Example json_bad_1 : Json.parse (js "{bad") = inl SyntaxError.
Proof. vm_compute. reflexivity. Qed.
Example json_bad_2 : Json.parse (js "[1,]") = inl SyntaxError.
Proof. vm_compute. reflexivity. Qed.
Example json_bad_3 : Json.parse (js "01") = inl SyntaxError.
Proof. vm_compute. reflexivity. Qed.
Example json_bad_4 : Json.parse [] = inl SyntaxError.
Proof. vm_compute. reflexivity. Qed.
Example json_bad_5 : Json.parse (js "1 2") = inl SyntaxError.
Proof. vm_compute. reflexivity. Qed.
Example json_num : Json.parse (js " 28.1 ") = inr (VNum 28.1).
Proof. vm_compute. reflexivity. Qed.
Example epoch_day : JsDate.civil_from_days 0 = (1970, 1, 1)%Z.
Proof. reflexivity. Qed.
Example day_of_2025_12_02 : JsDate.days_from_civil 2025 12 2 = 20424%Z.
Proof. reflexivity. Qed.
Example civil_of_20424 : JsDate.civil_from_days 20424 = (2025, 12, 2)%Z.
Proof. reflexivity. Qed.
Example leap_day : JsDate.civil_from_days (JsDate.days_from_civil 2024 2 29) = (2024, 2, 29)%Z.
Proof. reflexivity. Qed.
Example before_epoch : JsDate.civil_from_days (-1) = (1969, 12, 31)%Z.
Proof. reflexivity. Qed.
Example iso_example :
  JsDate.toISOString (Some 1764637200123%Z) = inr (js "2025-12-02T01:00:00.123Z").
Proof. vm_compute. reflexivity. Qed.
Example parse_example :
  JsDate.parse_local (js "2025-12-02T00:00:00") = Some (20424 * 86400000)%Z.
Proof. vm_compute. reflexivity. Qed.
Example parse_feb30 : JsDate.parse_local (js "2025-02-30T00:00:00") = None.
Proof. vm_compute. reflexivity. Qed.

(* ================================================================== *)
(** ** Properties of the script *)
(* ================================================================== *)

(** C4.  isValidEmail accepts "a@b.co" and rejects "a@b" and "abc". *)
Theorem isValidEmail_examples :
  isValidEmail (js "a@b.co") = true
  /\ isValidEmail (js "a@b") = false
  /\ isValidEmail (js "abc") = false.
Proof. repeat split; vm_compute; reflexivity. Qed.

Lemma showNotification_run (message type : jsstring) (s : State) :
  showNotification message type s
  = (inr tt, with_dom (fun d => set_toasts (toasts d ++ [toastOf message type]) d) s).
Proof. reflexivity. Qed.



(** C6.  Without the geolocation capability, handleLocateUser shows the
    error toast and returns: no position request is made, and the
    application state (the stored user location with it) is untouched. *)
Theorem handleLocateUser_unsupported (world : World) (s : State) :
  geolocation world = false ->
  exists s',
    handleLocateUser world s = (inr tt, s')
    /\ toasts (DOM s') =
         toasts (DOM s) ++ [toastOf (js "Geolocation not supported") (js "error")]
    /\ positionRequests (host s') = positionRequests (host s)
    /\ userLocation (appState s') = userLocation (appState s)
    /\ appState s' = appState s
    /\ host s' = host s.
Proof.
  intros Hgeo. unfold handleLocateUser. rewrite Hgeo. simpl.
  rewrite showNotification_run. eexists; split; [reflexivity|].
  repeat split.
Qed.

Lemma handleLocateUser_unsupported_witness :
  exists s',
    handleLocateUser offlineWorld (freshPage) = (inr tt, s')
    /\ toasts (DOM s') =
         toasts (DOM (freshPage))
         ++ [toastOf (js "Geolocation not supported") (js "error")]
    /\ positionRequests (host s') = positionRequests (host (freshPage))
    /\ userLocation (appState s') = userLocation (appState (freshPage))
    /\ appState s' = appState (freshPage)
    /\ host s' = host (freshPage).
Proof.
  apply (@handleLocateUser_unsupported offlineWorld (freshPage)).
  reflexivity.
Defined.

(** *** The marker renderer *)

Lemma append_markers_run (evs : list Cleanup) :
  forall (acc : M unit) (ch : list MarkerChild) (s s0 : State),
    acc s = (inr tt, put_markers ch s0) ->
    fold_left
      (fun (acc : M unit) cleanup =>
         bind acc (fun _ =>
           modify (with_dom (fun d =>
             set_mapMarkers
               (option_map (fun ch => ch ++ [MarkerNode (markerFor cleanup)])
                           (mapMarkers d)) d))))
      evs acc s
    = (inr tt, put_markers (ch ++ markersOf evs) s0).
Proof.
  induction evs as [|e evs IH]; intros acc ch s s0 Hacc; simpl.
  - rewrite app_nil_r. exact Hacc.
  - rewrite (IH _ (ch ++ [MarkerNode (markerFor e)]) s s0).
    + rewrite <- app_assoc. reflexivity.
    + unfold bind. rewrite Hacc. reflexivity.
Qed.

Lemma updateMapMarkers_run (a b : option float) (s : State) :
  updateMapMarkers a b s
  = (inr tt,
     match mapMarkers (DOM s) with
     | None => s
     | Some _ => put_markers (markersOf (cleanups (appState s))) s
     end).
Proof.
  unfold updateMapMarkers, bind, gets.
  destruct (mapMarkers (DOM s)) as [ch|] eqn:E; [|reflexivity].
  cbn [modify fst snd].
  apply (append_markers_run (cleanups (appState s)) (ret tt) []
           (with_dom (set_mapMarkers (Some [])) s) s).
  reflexivity.
Qed.

(** C7.  Two calls of the marker renderer in a row leave, in the container,
    exactly the nodes one call builds: one marker per event of the list, in
    order; the second call changes nothing. *)
Theorem updateMapMarkers_twice (a b c d : option float) (s : State) :
  let s1 := snd (updateMapMarkers a b s) in
  let s2 := snd (updateMapMarkers c d s1) in
  mapMarkers (DOM s2)
    = option_map (fun _ => markersOf (cleanups (appState s))) (mapMarkers (DOM s))
  /\ option_map (@List.length MarkerChild) (mapMarkers (DOM s2))
    = option_map (fun _ => List.length (cleanups (appState s))) (mapMarkers (DOM s))
  /\ s2 = s1
  /\ cleanups (appState s2) = cleanups (appState s).
Proof.
  cbv zeta. rewrite !updateMapMarkers_run. cbn [snd].
  destruct (mapMarkers (DOM s)) as [ch|] eqn:E.
  - cbn. unfold markersOf. rewrite length_map. repeat split.
  - rewrite E. cbn. rewrite E. repeat split.
Qed.

(** *** The preference store *)

Lemma loadUserPreferences_run (s : State) :
  loadUserPreferences s
  = match getItem (localStorage (host s)) storageKey with
    | None | Some [] => (inr tt, s)
    | Some saved =>
        match Json.parse saved with
        | inl e => (inl e, s)
        | inr parsed =>
            (inr tt,
             put_preferences (Js.spread (userPreferences (appState s)) parsed) s)
        end
    end.
Proof.
  unfold loadUserPreferences, bind, gets, storageKey.
  destruct (getItem (localStorage (host s)) (js "appPreferences")) as [[|c text]|];
    try reflexivity.
Qed.

Lemma spread_one_default (k : jsstring) (v : JsVal) :
  Js.spread defaultPreferences (VObj [(k, v)]) = Js.obj_set defaultPreferences k v.
Proof. reflexivity. Qed.

(** C2.  With nothing stored, loading leaves exactly the built-in defaults;
    with a stored JSON object that sets one of the three fields, the result
    is the defaults with that field replaced and the other two as they were. *)
Theorem loadUserPreferences_defaults_and_override
    (s : State) (absent present : list (jsstring * jsstring))
    (saved k : jsstring) (v : JsVal) :
  userPreferences (appState s) = defaultPreferences ->
  getItem absent storageKey = None ->
  getItem present storageKey = Some saved ->
  Json.parse saved = inr (VObj [(k, v)]) ->
  In k preferenceKeys ->
  loadUserPreferences (with_storage absent s) = (inr tt, with_storage absent s)
  /\ userPreferences (appState (snd (loadUserPreferences (with_storage absent s))))
     = defaultPreferences
  /\ exists s',
       loadUserPreferences (with_storage present s) = (inr tt, s')
       /\ userPreferences (appState s') = Js.obj_set defaultPreferences k v
       /\ List.length (userPreferences (appState s')) = 3
       /\ Js.obj_get (userPreferences (appState s')) k = Some v
       /\ Forall (fun k' => k' = k \/
                   Js.obj_get (userPreferences (appState s')) k'
                   = Js.obj_get defaultPreferences k') preferenceKeys.
Proof.
  intros Hdef Hnone Hget Hparse Hin.
  rewrite !loadUserPreferences_run.
  cbn [with_storage with_host host localStorage set_localStorage].
  rewrite Hnone, Hget, Hparse. cbn [snd].
  split; [reflexivity|]. split; [exact Hdef|].
  destruct saved as [|c text]; [vm_compute in Hparse; discriminate|].
  cbn [with_storage with_host appState]. rewrite Hdef, spread_one_default.
  eexists; split; [reflexivity|].
  cbn [put_preferences with_app appState userPreferences set_userPreferences].
  split; [reflexivity|].
  unfold preferenceKeys in *. simpl in Hin.
  destruct Hin as [<-|[<-|[<-|[]]]].
  all: (split; [reflexivity|]; split; [reflexivity|]).
  all: repeat constructor; try (left; reflexivity); right; reflexivity.
Qed.

Lemma loadUserPreferences_defaults_and_override_witness :
  loadUserPreferences (with_storage [] freshPage) = (inr tt, with_storage [] freshPage)
  /\ userPreferences (appState (snd (loadUserPreferences (with_storage [] freshPage))))
     = defaultPreferences
  /\ exists s',
       loadUserPreferences
         (with_storage [(storageKey, jsq "{'units':'imperial'}")] freshPage)
       = (inr tt, s')
       /\ userPreferences (appState s')
          = Js.obj_set defaultPreferences (js "units") (VStr (js "imperial"))
       /\ List.length (userPreferences (appState s')) = 3
       /\ Js.obj_get (userPreferences (appState s')) (js "units")
          = Some (VStr (js "imperial"))
       /\ Forall (fun k' => k' = js "units" \/
                   Js.obj_get (userPreferences (appState s')) k'
                   = Js.obj_get defaultPreferences k') preferenceKeys.
Proof.
  apply (loadUserPreferences_defaults_and_override freshPage []
           [(storageKey, jsq "{'units':'imperial'}")]
           (jsq "{'units':'imperial'}") (js "units") (VStr (js "imperial"))).
  - reflexivity.
  - reflexivity.
  - reflexivity.
  - vm_compute. reflexivity.
  - simpl. auto.
Defined.

Lemma parse_only_syntax_error (text : jsstring) (e : Exn) :
  Json.parse text = inl e -> e = SyntaxError.
Proof.
  unfold Json.parse.
  destruct (Json.lex text Json.LStart []) as [ts|]; [|congruence].
  destruct (Json.run ts (Json.PValue [])); congruence.
Qed.

(** C3 (as the code has it).  Loading returns silently, with the
    preferences as they were, when nothing or the empty string is stored.
    A stored string that is not JSON makes it raise the SyntaxError of
    JSON.parse, which it does not catch; the preferences are then also as
    they were.  A stored JSON value is merged over them. *)
Theorem loadUserPreferences_storage_cases
    (s : State) (stored : list (jsstring * jsstring)) :
  match getItem stored storageKey with
  | None | Some [] =>
      loadUserPreferences (with_storage stored s) = (inr tt, with_storage stored s)
  | Some saved =>
      match Json.parse saved with
      | inl e =>
          e = SyntaxError
          /\ loadUserPreferences (with_storage stored s)
             = (inl SyntaxError, with_storage stored s)
      | inr parsed =>
          loadUserPreferences (with_storage stored s)
          = (inr tt,
             put_preferences (Js.spread (userPreferences (appState s)) parsed)
               (with_storage stored s))
      end
  end.
Proof.
  rewrite loadUserPreferences_run.
  cbn [with_storage with_host host localStorage set_localStorage].
  destruct (getItem stored storageKey) as [[|c text]|]; try reflexivity.
  destruct (Json.parse (c :: text)) as [e|parsed] eqn:E; [|reflexivity].
  apply parse_only_syntax_error in E. subst e. split; reflexivity.
Qed.

(** C3, as claimed, fails: with the text [{bad] stored, loading raises
    SyntaxError instead of returning. *)
Lemma loadUserPreferences_malformed_raises :
  loadUserPreferences (with_storage [(storageKey, js "{bad")] freshPage)
  = (inl SyntaxError, with_storage [(storageKey, js "{bad")] freshPage)
  /\ ~ (forall saved : jsstring,
          exists s',
            loadUserPreferences (with_storage [(storageKey, saved)] freshPage)
            = (inr tt, s')
            /\ userPreferences (appState s') = defaultPreferences).
Proof.
  split; [vm_compute; reflexivity|].
  intros H. destruct (H (js "{bad")) as [s' [Hrun _]].
  vm_compute in Hrun. discriminate.
Qed.

(** *** formatDate *)

Lemma fixedZone_keeps_day (offset lt : Z) :
  (Z.abs (lt - offset) <= 8640000000000000)%Z ->
  zone_keeps_day (fixedZoneEngine offset) lt.
Proof.
  intros H. unfold zone_keeps_day, JsDate.UTC, JsDate.LocalTime, JsDate.TimeClip.
  cbn [LocalTZA fixedZoneEngine].
  apply Z.leb_le in H. rewrite H. f_equal. lia.
Qed.

(** C8.  formatDate("2025-12-02") is "Tue 2 Dec", in every zone where the
    local midnight that starts 2 December 2025 falls on that day. *)
Theorem formatDate_2025_12_02 (eng : Engine) :
  zone_keeps_day eng (localMidnight 2025 12 2) ->
  formatDate eng (VStr (js "2025-12-02")) = js "Tue 2 Dec".
Proof.
  unfold zone_keeps_day, formatDate. intros H.
  change (Js.truthy (VStr (js "2025-12-02"))) with true. cbn [negb].
  change (Js.ToString eng (VStr (js "2025-12-02"))) with (js "2025-12-02").
  unfold JsDate.new_Date_string.
  replace (JsDate.parse_local (js "2025-12-02" ++ js "T00:00:00"))
    with (Some (localMidnight 2025 12 2)) by (vm_compute; reflexivity).
  destruct (JsDate.TimeClip (JsDate.UTC eng (localMidnight 2025 12 2))) as [u|];
    [|contradiction].
  unfold JsDate.getDay, JsDate.getDate, JsDate.getMonth, option_map,
    JsDate.WeekDay, JsDate.DateFromTime, JsDate.MonthFromTime.
  rewrite H. vm_compute. reflexivity.
Qed.

Lemma formatDate_2025_12_02_witness :
  formatDate sgEngine (VStr (js "2025-12-02")) = js "Tue 2 Dec".
Proof.
  apply (formatDate_2025_12_02 sgEngine).
  apply fixedZone_keeps_day. vm_compute. discriminate.
Defined.

(** *** What stays as it was *)

Section Keeps.
Context {X : Type} (f : State -> X).

Lemma keeps_ret {A} (a : A) : keeps f (ret a).
Proof. intros s; reflexivity. Qed.

Lemma keeps_throw {A} (e : Exn) : keeps f (@throw A e).
Proof. intros s; reflexivity. Qed.

Lemma keeps_lift {A} (r : Exn + A) : keeps f (lift r).
Proof. intros s; reflexivity. Qed.

Lemma keeps_gets {A} (g : State -> A) : keeps f (gets g).
Proof. intros s; reflexivity. Qed.

Lemma keeps_bind {A B} (m : M A) (k : A -> M B) :
  keeps f m -> (forall a, keeps f (k a)) -> keeps f (bind m k).
Proof.
  intros Hm Hk s. unfold bind. specialize (Hm s).
  destruct (m s) as [[e|a] s1]; simpl in *; [exact Hm|].
  rewrite Hk. exact Hm.
Qed.

Lemma keeps_try_catch {A} (m : M A) (h : Exn -> M A) :
  keeps f m -> (forall e, keeps f (h e)) -> keeps f (try_catch m h).
Proof.
  intros Hm Hh s. unfold try_catch. specialize (Hm s).
  destruct (m s) as [[e|a] s1]; simpl in *; [|exact Hm].
  rewrite Hh. exact Hm.
Qed.

Lemma keeps_detached (m : M unit) : keeps f m -> keeps f (detached m).
Proof. intros Hm s. exact (Hm s). Qed.

Lemma keeps_when (b : bool) (m : M unit) : keeps f m -> keeps f (when b m).
Proof. intros Hm. destruct b; [exact Hm | apply keeps_ret]. Qed.
End Keeps.

Lemma keeps_or_compute {X} (f : State -> X) (x : JsVal) (fallback : M JsVal) :
  keeps f fallback -> keeps f (or_compute x fallback).
Proof. intros H. unfold or_compute. destruct (Js.truthy x); [apply keeps_ret | exact H]. Qed.

Create HintDb keeps.

(** Splits a computation along its binds and branches; what is left are
    the calls for which the hint database has a lemma. *)
Ltac keeps_tac :=
  repeat first
    [ solve [auto with keeps]
    | match goal with
      | |- keeps _ (ret _) => apply keeps_ret
      | |- keeps _ (throw _) => apply keeps_throw
      | |- keeps _ (lift _) => apply keeps_lift
      | |- keeps _ (gets _) => apply keeps_gets
      | |- keeps _ (or_compute _ _) => apply keeps_or_compute
      | |- keeps _ (bind _ _) => apply keeps_bind; [|intros]
      | |- keeps _ (try_catch _ _) => apply keeps_try_catch; [|intros]
      | |- keeps _ (when _ _) => apply keeps_when
      | |- keeps _ (detached _) => apply keeps_detached
      | |- keeps _ (if ?b then _ else _) => destruct b
      | |- keeps _ (match ?x with Some _ => _ | None => _ end) => destruct x
      | |- keeps _ (let (_, _) := ?x in _) => destruct x
      | |- keeps _ (match ?x with
                    | VUndefined => _ | VNull => _ | VBool _ => _ | VNum _ => _
                    | VStr _ => _ | VArr _ => _ | VObj _ => _
                    end) => destruct x
      end ].

(** The host calls and the toast touch neither [appState] nor, the toast
    apart, the document. *)
Lemma Math_random_keeps_dom w : keeps DOM (Math_random w).
Proof. intros s; reflexivity. Qed.
Lemma Math_random_keeps_app w : keeps appState (Math_random w).
Proof. intros s; reflexivity. Qed.
Lemma new_Date_keeps_dom w : keeps DOM (new_Date w).
Proof. intros s; reflexivity. Qed.
Lemma new_Date_keeps_app w : keeps appState (new_Date w).
Proof. intros s; reflexivity. Qed.
#[export] Hint Resolve Math_random_keeps_dom Math_random_keeps_app
  new_Date_keeps_dom new_Date_keeps_app : keeps.

Lemma getDateString_keeps_dom eng w n : keeps DOM (getDateString eng w n).
Proof. unfold getDateString. keeps_tac. Qed.
Lemma getDateString_keeps_app eng w n : keeps appState (getDateString eng w n).
Proof. unfold getDateString. keeps_tac. Qed.
#[export] Hint Resolve getDateString_keeps_dom getDateString_keeps_app : keeps.

Lemma forecastCard_keeps_dom eng w day i : keeps DOM (forecastCard eng w day i).
Proof. unfold forecastCard, or_compute, random_condition. keeps_tac. Qed.
Lemma forecastCard_keeps_app eng w day i : keeps appState (forecastCard eng w day i).
Proof. unfold forecastCard, or_compute, random_condition. keeps_tac. Qed.
#[export] Hint Resolve forecastCard_keeps_dom forecastCard_keeps_app : keeps.

Lemma forecastCards_keeps_dom eng w l : forall i, keeps DOM (forecastCards eng w l i).
Proof. induction l; intros i; simpl; keeps_tac. Qed.
Lemma forecastCards_keeps_app eng w l : forall i, keeps appState (forecastCards eng w l i).
Proof. induction l; intros i; simpl; keeps_tac. Qed.
#[export] Hint Resolve forecastCards_keeps_dom forecastCards_keeps_app : keeps.

Lemma forecastCards_length eng w l :
  forall i s cards s',
    forecastCards eng w l i s = (inr cards, s') -> List.length cards = List.length l.
Proof.
  induction l as [|day l IH]; intros i s cards s' H; simpl in H.
  - inversion H. reflexivity.
  - unfold bind in H.
    destruct (forecastCard eng w day i s) as [[e|card] s1]; [discriminate|].
    destruct (forecastCards eng w l (i + 1) s1) as [[e|rest] s2] eqn:E; [discriminate|].
    inversion H; subst. simpl. f_equal. eapply IH; eassumption.
Qed.

(** *** Running a computation step by step *)

Lemma bind_run {A B} (m : M A) (k : A -> M B) (s s1 : State) (a : A) :
  m s = (inr a, s1) -> bind m k s = k a s1.
Proof. intros H. unfold bind. rewrite H. reflexivity. Qed.

Lemma bind_throw_run {A B} (m : M A) (k : A -> M B) (s s1 : State) (e : Exn) :
  m s = (inl e, s1) -> bind m k s = (inl e, s1).
Proof. intros H. unfold bind. rewrite H. reflexivity. Qed.

Lemma bind_lift_ok {A B} (a : A) (k : A -> M B) : bind (lift (inr a)) k = k a.
Proof. reflexivity. Qed.



Lemma getWeatherIcon_string (eng : Engine) (c : jsstring) :
  getWeatherIcon eng (VStr c) = inr (weatherIcon (toLowerCase eng c)).
Proof. destruct c; reflexivity. Qed.

Lemma updateWeatherDisplay_run (eng : Engine) (wd : WeatherData) (s : State) :
  updateWeatherDisplay eng wd s = (inr tt, show_weather eng wd s).
Proof.
  unfold updateWeatherDisplay, show_weather, bind, gets, lift. cbn [fst snd Js.Get].
  destruct (weatherDisplay (DOM s)); [|reflexivity].
  rewrite getWeatherIcon_string. reflexivity.
Qed.

Lemma getDateString_run (eng : Engine) (w : World) (n : Z) (s : State) :
  getDateString eng w n s
  = (dateStringAt eng (clockOracle w (clockReads (host s))) n, tick_clock s).
Proof. reflexivity. Qed.

(** *** What displayForecast puts on the cards *)

Lemma bind_inr {A B} (m : M A) (k : A -> M B) (s s2 : State) (b : B) :
  bind m k s = (inr b, s2) ->
  exists a s1, m s = (inr a, s1) /\ k a s1 = (inr b, s2).
Proof.
  unfold bind. destruct (m s) as [[e|a] s1]; [discriminate|].
  intros H. exists a, s1. split; [reflexivity | exact H].
Qed.

Lemma lift_inr {A} (r : Exn + A) (s s1 : State) (a : A) :
  lift r s = (inr a, s1) -> r = inr a /\ s1 = s.
Proof. unfold lift. intros H. injection H as -> ->. split; reflexivity. Qed.

Lemma Get_field (day : JsVal) (k : jsstring) (v : JsVal) :
  Js.Get day k = inr v -> v = field day k.
Proof. unfold field. intros ->. reflexivity. Qed.

Lemma or_compute_inr (x : JsVal) (fallback : M JsVal) (s s1 : State) (v : JsVal) :
  or_compute x fallback s = (inr v, s1) ->
  if Js.truthy x then v = x /\ s1 = s else fallback s = (inr v, s1).
Proof.
  unfold or_compute. destruct (Js.truthy x); [|exact (fun H => H)].
  intros H. injection H as -> ->. split; reflexivity.
Qed.

Lemma random_condition_values (w : World) (s s1 : State) (v : JsVal) :
  random_condition w s = (inr v, s1) ->
  In v [VStr (js "Sunny"); VStr (js "Partly Cloudy");
        VStr (js "Thundery Showers"); VUndefined].
Proof.
  unfold random_condition, bind, Math_random, ret. intros H. injection H as <- _.
  destruct (JsNum.to_Z _) as [[|[p|[p|p|]|]|p]|]; simpl; auto 8.
Qed.

Ltac step_get H :=
  let v := fresh "v" in let s := fresh "s" in let E := fresh "E" in
  apply bind_inr in H as (v & s & E & H);
  apply lift_inr in E as [E ->]; apply Get_field in E; subst v.

Lemma forecastCard_card_for (eng : Engine) (w : World) (day : JsVal) (i : Z)
    (s s1 : State) (card : ForecastCard) :
  forecastCard eng w day i s = (inr card, s1) -> card_for eng w i day card.
Proof.
  intros H. unfold forecastCard in H.
  step_get H.
  apply bind_inr in H as (date & sa & Hdate & H). apply or_compute_inr in Hdate.
  step_get H.
  apply bind_inr in H as (temp & sb & Htemp & H). apply or_compute_inr in Htemp.
  step_get H.
  apply bind_inr in H as (minTemp & sc & Hmin & H). apply or_compute_inr in Hmin.
  step_get H.
  apply bind_inr in H as (cond & sd & Hcond & H). apply or_compute_inr in Hcond.
  apply bind_inr in H as (icon & se & Hicon & H).
  apply lift_inr in Hicon as [Hicon ->].
  apply bind_inr in H as (t1 & st1 & Ht1 & H). apply lift_inr in Ht1 as [_ ->].
  apply bind_inr in H as (t2 & st2 & Ht2 & H). apply lift_inr in Ht2 as [_ ->].
  apply bind_inr in H as (t3 & st3 & Ht3 & H). apply lift_inr in Ht3 as [_ ->].
  apply bind_inr in H as (r & sf & Hr & H).
  unfold Math_random in Hr. injection Hr as <- _.
  unfold ret in H. injection H as <- _.
  unfold card_for. cbn [fc_date fc_temp fc_minTemp fc_condition fc_icon fc_humidity].
  repeat split.
  - destruct (Js.truthy (field day (js "date"))).
    + destruct Hdate as [-> _]. reflexivity.
    + apply bind_inr in Hdate as (d & s' & Hd & Hret).
      unfold ret in Hret. injection Hret as <- _.
      rewrite getDateString_run in Hd. injection Hd as Hd _.
      exists (clockReads (host s)), d. split; [exact Hd | reflexivity].
  - destruct (Js.truthy (field day (js "high"))).
    + destruct Htemp as [-> _]. reflexivity.
    + apply bind_inr in Htemp as (r & s' & Hr & Hret).
      unfold Math_random in Hr. injection Hr as <- _.
      unfold ret in Hret. injection Hret as <- _.
      eexists. reflexivity.
  - destruct (Js.truthy (field day (js "low"))).
    + destruct Hmin as [-> _]. reflexivity.
    + apply bind_inr in Hmin as (r & s' & Hr & Hret).
      unfold Math_random in Hr. injection Hr as <- _.
      unfold ret in Hret. injection Hret as <- _.
      eexists. reflexivity.
  - destruct (Js.truthy (field day (js "forecast"))).
    + destruct Hcond as [-> _]. reflexivity.
    + eapply random_condition_values. exact Hcond.
  - exact Hicon.
  - eexists. reflexivity.
Qed.

Lemma forecastCards_cards_for (eng : Engine) (w : World) (l : list JsVal) :
  forall (i : Z) (s s1 : State) (cards : list ForecastCard),
    forecastCards eng w l i s = (inr cards, s1) -> cards_for eng w i l cards.
Proof.
  induction l as [|day l IH]; intros i s s1 cards H; cbn [forecastCards] in H.
  - unfold ret in H. injection H as <- _. exact I.
  - apply bind_inr in H as (card & sa & Hcard & H).
    apply bind_inr in H as (rest & sb & Hrest & H).
    unfold ret in H. injection H as <- _.
    split; [eapply forecastCard_card_for; exact Hcard | eapply IH; exact Hrest].
Qed.

Lemma renders_fields (day : JsVal) :
  renders day = true ->
  (forall k, Js.Get day k = inr (field day k))
  /\ match field day (js "forecast") with
     | VStr _ => True
     | v => Js.truthy v = false
     end
  /\ Js.convertible (field day (js "date")) = true
  /\ Js.convertible (field day (js "high")) = true
  /\ Js.convertible (field day (js "low")) = true.
Proof.
  intros H.
  assert (G : forall k, Js.Get day k = inr (field day k))
    by (intros k; unfold field; destruct day; try discriminate; reflexivity).
  split; [exact G|].
  assert (H' : (match field day (js "forecast") with
                | VStr _ => true
                | v => negb (Js.truthy v)
                end
                && Js.convertible (field day (js "date"))
                && Js.convertible (field day (js "high"))
                && Js.convertible (field day (js "low")))%bool = true)
    by (destruct day; try discriminate; exact H).
  apply andb_prop in H' as [H' Hlow]. apply andb_prop in H' as [H' Hhigh].
  apply andb_prop in H' as [Hf Hdate].
  repeat split; try assumption.
  destruct (field day (js "forecast")); try exact I;
    apply negb_true_iff in Hf; exact Hf.
Qed.

Lemma or_compute_returns (x : JsVal) (fallback : M JsVal) (s : State) :
  (Js.truthy x = false -> exists v s1, fallback s = (inr v, s1)) ->
  exists v s1,
    or_compute x fallback s = (inr v, s1)
    /\ (Js.truthy x = true /\ v = x \/ Js.truthy x = false /\ fallback s = (inr v, s1)).
Proof.
  intros H. unfold or_compute. destruct (Js.truthy x).
  - exists x, s. split; [reflexivity | left; split; reflexivity].
  - destruct (H eq_refl) as (v & s1 & E). exists v, s1.
    split; [exact E | right; split; [reflexivity | exact E]].
Qed.

Lemma getWeatherIcon_shown (eng : Engine) (w : World) (day cond : JsVal) (s s1 : State) :
  match field day (js "forecast") with
  | VStr _ => True
  | v => Js.truthy v = false
  end ->
  Js.truthy (field day (js "forecast")) = true /\ cond = field day (js "forecast")
  \/ Js.truthy (field day (js "forecast")) = false
     /\ random_condition w s = (inr cond, s1) ->
  exists icon, getWeatherIcon eng cond = inr icon.
Proof.
  intros Hf [[T ->]|[_ E]].
  - destruct (field day (js "forecast")) as [| |b|x|c|l|p]; try congruence.
    eexists. apply getWeatherIcon_string.
  - apply random_condition_values in E. simpl in E.
    destruct E as [<-|[<-|[<-|[<-|[]]]]]; eexists; reflexivity.
Qed.

Lemma template_returns (eng : Engine) (v : JsVal) :
  Js.convertible v = true -> Js.template eng v = inr (Js.ToString eng v).
Proof. intros H. unfold Js.template. rewrite H. reflexivity. Qed.

Lemma forecastCard_returns (eng : Engine) (w : World) (day : JsVal) (i : Z) (s : State) :
  renders day = true ->
  has_date day = true
  \/ (exists d, dateStringAt eng (clockOracle w (clockReads (host s))) i = inr d) ->
  exists card s1, forecastCard eng w day i s = (inr card, s1).
Proof.
  intros Hr Hd.
  destruct (renders_fields day Hr) as (G & Hf & Cd & Ch & Cl).
  unfold forecastCard.
  rewrite (G (js "date")), bind_lift_ok.
  destruct (or_compute_returns (field day (js "date"))
              (bind (getDateString eng w i) (fun d => ret (VStr d))) s)
    as (date & sa & Ea & Hdate).
  { intros F. destruct Hd as [Hd|[d Hd]]; [unfold has_date in Hd; congruence|].
    exists (VStr d), (tick_clock s). unfold bind. rewrite getDateString_run, Hd.
    reflexivity. }
  assert (Cdate : Js.convertible date = true).
  { destruct Hdate as [[_ ->]|[_ E]]; [exact Cd|].
    apply bind_inr in E as (d & s' & _ & E). unfold ret in E.
    injection E as <- _. reflexivity. }
  rewrite (bind_run _ _ _ _ _ Ea).
  rewrite (G (js "high")), bind_lift_ok.
  destruct (or_compute_returns (field day (js "high"))
              (bind (Math_random w)
                 (fun r => ret (VNum (JsNum.Math_round (25 + r * 5)%float)))) sa)
    as (temp & sb & Eb & Htemp).
  { intros _. eexists. eexists. reflexivity. }
  assert (Ctemp : Js.convertible temp = true).
  { destruct Htemp as [[_ ->]|[_ E]]; [exact Ch|].
    apply bind_inr in E as (r & s' & _ & E). unfold ret in E.
    injection E as <- _. reflexivity. }
  rewrite (bind_run _ _ _ _ _ Eb).
  rewrite (G (js "low")), bind_lift_ok.
  destruct (or_compute_returns (field day (js "low"))
              (bind (Math_random w)
                 (fun r => ret (VNum (JsNum.Math_round (20 + r * 3)%float)))) sb)
    as (minTemp & sc & Ec & Hmin).
  { intros _. eexists. eexists. reflexivity. }
  assert (Cmin : Js.convertible minTemp = true).
  { destruct Hmin as [[_ ->]|[_ E]]; [exact Cl|].
    apply bind_inr in E as (r & s' & _ & E). unfold ret in E.
    injection E as <- _. reflexivity. }
  rewrite (bind_run _ _ _ _ _ Ec).
  rewrite (G (js "forecast")), bind_lift_ok.
  destruct (or_compute_returns (field day (js "forecast")) (random_condition w) sc)
    as (cond & sd & Ed & Hcond).
  { intros _. eexists. eexists. reflexivity. }
  rewrite (bind_run _ _ _ _ _ Ed).
  destruct (getWeatherIcon_shown eng w day cond sc sd Hf Hcond) as [icon Hicon].
  rewrite Hicon, bind_lift_ok.
  rewrite (template_returns eng date Cdate), bind_lift_ok.
  rewrite (template_returns eng temp Ctemp), bind_lift_ok.
  rewrite (template_returns eng minTemp Cmin), bind_lift_ok.
  eexists. eexists. reflexivity.
Qed.

Lemma forecastCards_returns (eng : Engine) (w : World) (l : list JsVal) :
  forallb renders l = true ->
  clock_in_range eng w \/ forallb has_date l = true ->
  forall (i : Z) (s : State),
    (0 <= i)%Z -> (i + Z.of_nat (List.length l) <= 4)%Z ->
    exists cards s1, forecastCards eng w l i s = (inr cards, s1).
Proof.
  induction l as [|day l IH]; intros Hr Hd i s Hi Hlen; cbn [forecastCards].
  - exists [], s. reflexivity.
  - cbn [forallb] in Hr. apply andb_prop in Hr as [Hr1 Hr2].
    cbn [List.length] in Hlen.
    destruct (forecastCard_returns eng w day i s Hr1) as (card & sa & Ea).
    { destruct Hd as [Hd|Hd].
      - right. apply Hd. lia.
      - left. cbn [forallb] in Hd. apply andb_prop in Hd as [Hd _]. exact Hd. }
    rewrite (bind_run _ _ _ _ _ Ea).
    destruct (IH Hr2) with (i := (i + 1)%Z) (s := sa) as (cards & sb & Eb).
    { destruct Hd as [Hd|Hd]; [left; exact Hd|].
      right. cbn [forallb] in Hd. apply andb_prop in Hd as [_ Hd]. exact Hd. }
    { lia. }
    { lia. }
    rewrite (bind_run _ _ _ _ _ Eb).
    eexists. eexists. reflexivity.
Qed.

(** C10.  displayForecast shows at most four cards, those of the first
    four entries.  With no grid on the page, or a missing (falsy) value,
    it returns at once and leaves everything as it was.  Otherwise what it
    does is decided by the first four entries alone (the whole array for a
    shorter one, no entry for a value that is not an array).  When the call
    returns, the grid holds one card for each of these entries, in order,
    each built from the fields of its own entry: as many cards as entries,
    four at most, none for a value that is not an array.  When an entry
    makes the callback raise, the call raises and nothing is written.  The
    call does return when each of these entries is neither undefined nor
    null, has a forecast that is missing or a string, has a date, a high
    and a low that have strings, and brings its date or finds the clock in
    the range of Date. *)
Theorem displayForecast_at_most_four
    (eng : Engine) (world : World) (forecast : JsVal) (s : State) :
  let entries := firstn 4 (elements_of forecast) in
  displayForecast eng world forecast s
  = displayForecast eng world
      (match forecast with VArr l => VArr (firstn 4 l) | v => v end) s
  /\ match forecastGrid (DOM s), Js.truthy forecast with
     | Some _, true =>
         match displayForecast eng world forecast s with
         | (inr _, s') =>
             exists cards,
               forecastGrid (DOM s') = Some (Written cards)
               /\ cards_for eng world 0 entries cards
               /\ List.length cards = Nat.min 4 (List.length (elements_of forecast))
               /\ (List.length cards <= 4)%nat
         | (inl _, s') => DOM s' = DOM s
         end
         /\ (forallb renders entries = true ->
             clock_in_range eng world \/ forallb has_date entries = true ->
             exists s', displayForecast eng world forecast s = (inr tt, s'))
     | _, _ => displayForecast eng world forecast s = (inr tt, s)
     end.
Proof.
  intros entries. split.
  - destruct forecast; try reflexivity.
    unfold displayForecast. rewrite firstn_firstn. reflexivity.
  - unfold displayForecast, bind, gets. cbn [fst snd].
    destruct (forecastGrid (DOM s)) as [g|] eqn:G; [|reflexivity].
    destruct (Js.truthy forecast) eqn:T; cbn [negb]; [|reflexivity].
    fold (elements_of forecast). fold entries.
    pose proof (forecastCards_keeps_dom eng world entries 0 s) as K.
    pose proof (forecastCards_cards_for eng world entries 0 s) as C.
    pose proof (forecastCards_length eng world entries 0 s) as L.
    assert (Hlen : (List.length entries <= 4)%nat)
      by (unfold entries; rewrite length_firstn; apply Nat.le_min_l).
    pose proof (fun Hr Hd =>
                  forecastCards_returns eng world entries Hr Hd 0%Z s
                    (Z.le_refl 0) ltac:(lia)) as R.
    destruct (forecastCards eng world entries 0 s) as [[e|cards] s1].
    + split; [exact K|].
      intros Hr Hd. destruct (R Hr Hd) as (cards & s2 & E). discriminate E.
    + split.
      * exists cards. split; [reflexivity|]. split; [eapply C; reflexivity|].
        specialize (L cards s1 eq_refl).
        split; [rewrite L; unfold entries; apply length_firstn | rewrite L; exact Hlen].
      * intros _ _. eexists. reflexivity.
Qed.

Lemma displayForecast_at_most_four_witness :
  exists cards s',
    displayForecast sgEngine offlineWorld sixDays freshPage = (inr tt, s')
    /\ forecastGrid (DOM s') = Some (Written cards)
    /\ map (fun c => (fc_date c, fc_temp c, fc_minTemp c, fc_condition c)) cards
       = [ (js "Tue 2 Dec", VNum 32, VNum 24, VStr (js "Sunny"));
           (js "Wed 3 Dec", VNum 30, VNum 23, VStr (js "Partly Cloudy"));
           (js "Thu 4 Dec", VNum 28, VNum 22, VStr (js "Thundery Showers"));
           (js "Fri 5 Dec", VNum 31, VNum 24, VStr (js "Sunny")) ].
Proof.
  destruct (displayForecast_at_most_four sgEngine offlineWorld sixDays freshPage)
    as [_ H].
  change (forecastGrid (DOM freshPage)) with (Some (@PageMarkup (list ForecastCard))) in H.
  change (Js.truthy sixDays) with true in H. cbv beta iota in H.
  destruct H as [H R].
  destruct R as [s' E]; [vm_compute; reflexivity | right; vm_compute; reflexivity |].
  rewrite E in H. destruct H as (cards & G & C & _).
  exists cards, s'. split; [exact E|]. split; [exact G|].
  cbn [sixDays elements_of firstn] in C.
  destruct cards as [|c1 [|c2 [|c3 [|c4 [|c5 cards]]]]];
    cbn [cards_for] in C; try tauto.
  destruct c1, c2, c3, c4. unfold card_for in C. vm_compute in C.
  destruct C as [(D1 & T1 & M1 & F1 & _) [(D2 & T2 & M2 & F2 & _)
                [(D3 & T3 & M3 & F3 & _) [(D4 & T4 & M4 & F4 & _) _]]]].
  subst. vm_compute. reflexivity.
Defined.

(** *** The date string is never empty *)







Set Warnings "-abstract-large-number".
(** *** The calendar *)









(** *** getDateString in a zone with a fixed offset *)












(** *** The fallback forecast *)

Lemma show_weather_host (eng : Engine) (wd : WeatherData) (s : State) :
  host (show_weather eng wd s) = host s.
Proof. unfold show_weather. destruct (weatherDisplay (DOM s)); reflexivity. Qed.

Lemma show_weather_app (eng : Engine) (wd : WeatherData) (s : State) :
  appState (show_weather eng wd s) = appState s.
Proof. unfold show_weather. destruct (weatherDisplay (DOM s)); reflexivity. Qed.









(** *** The weather load and its fallback *)

Lemma keeps_modify {X} (f : State -> X) (g : State -> State) :
  (forall s, f (g s) = f s) -> keeps f (modify g).
Proof. intros H s. exact (H s). Qed.

Lemma keeps_compose {A X Y} (g : State -> X) (f : X -> Y) (m : M A) :
  keeps g m -> keeps (fun s => f (g s)) m.
Proof. intros H s. simpl. rewrite H. reflexivity. Qed.

(** As [keeps_tac], and a [modify] is checked by computing. *)
Ltac keeps_all :=
  repeat first
    [ solve [auto with keeps]
    | match goal with
      | |- keeps _ (modify _) => apply keeps_modify; intros ?; reflexivity
      end
    | progress keeps_tac ].

Lemma showNotification_keeps_app m t : keeps appState (showNotification m t).
Proof. intros s; reflexivity. Qed.
Lemma showNotification_keeps_host m t : keeps host (showNotification m t).
Proof. intros s; reflexivity. Qed.
Lemma showNotification_keeps_shown m t : keeps shownWeather (showNotification m t).
Proof. intros s; reflexivity. Qed.
Lemma showNotification_keeps_display m t : keeps hasDisplay (showNotification m t).
Proof. intros s; reflexivity. Qed.
Lemma showNotification_keeps_prefs m t : keeps preferences (showNotification m t).
Proof. intros s; reflexivity. Qed.
Lemma showNotification_keeps_count m t : keeps fetchCount (showNotification m t).
Proof. intros s; reflexivity. Qed.
#[export] Hint Resolve showNotification_keeps_app showNotification_keeps_host
  showNotification_keeps_shown showNotification_keeps_display
  showNotification_keeps_prefs showNotification_keeps_count : keeps.

Lemma console_error_keeps_app l e : keeps appState (console_error l e).
Proof. intros s; reflexivity. Qed.
Lemma console_error_keeps_dom l e : keeps DOM (console_error l e).
Proof. intros s; reflexivity. Qed.
Lemma console_error_keeps_display l e : keeps hasDisplay (console_error l e).
Proof. intros s; reflexivity. Qed.
Lemma console_error_keeps_prefs l e : keeps preferences (console_error l e).
Proof. intros s; reflexivity. Qed.
Lemma console_error_keeps_count l e : keeps fetchCount (console_error l e).
Proof. intros s; reflexivity. Qed.
#[export] Hint Resolve console_error_keeps_app console_error_keeps_dom
  console_error_keeps_display console_error_keeps_prefs
  console_error_keeps_count : keeps.

Lemma updateWeatherDisplay_keeps_app eng wd : keeps appState (updateWeatherDisplay eng wd).
Proof. intros s. rewrite updateWeatherDisplay_run. apply show_weather_app. Qed.
Lemma updateWeatherDisplay_keeps_host eng wd : keeps host (updateWeatherDisplay eng wd).
Proof. intros s. rewrite updateWeatherDisplay_run. apply show_weather_host. Qed.
Lemma updateWeatherDisplay_keeps_display eng wd : keeps hasDisplay (updateWeatherDisplay eng wd).
Proof.
  intros s. rewrite updateWeatherDisplay_run. unfold show_weather, hasDisplay. simpl.
  destruct (weatherDisplay (DOM s)) eqn:E; simpl; [reflexivity | rewrite E; reflexivity].
Qed.
Lemma updateWeatherDisplay_keeps_prefs eng wd : keeps preferences (updateWeatherDisplay eng wd).
Proof. apply (keeps_compose appState userPreferences), updateWeatherDisplay_keeps_app. Qed.
Lemma updateWeatherDisplay_keeps_count eng wd : keeps fetchCount (updateWeatherDisplay eng wd).
Proof. apply (keeps_compose host fetches), updateWeatherDisplay_keeps_host. Qed.
#[export] Hint Resolve updateWeatherDisplay_keeps_app updateWeatherDisplay_keeps_host
  updateWeatherDisplay_keeps_display updateWeatherDisplay_keeps_prefs
  updateWeatherDisplay_keeps_count : keeps.

(** displayForecast writes the forecast grid and draws from the clock and
    the random source; nothing else. *)
Lemma displayForecast_keeps_app eng w v : keeps appState (displayForecast eng w v).
Proof. unfold displayForecast. keeps_all. Qed.
Lemma displayForecast_keeps_shown eng w v : keeps shownWeather (displayForecast eng w v).
Proof.
  unfold displayForecast. keeps_all.
  apply (keeps_compose DOM weatherDisplay), forecastCards_keeps_dom.
Qed.
Lemma displayForecast_keeps_display eng w v : keeps hasDisplay (displayForecast eng w v).
Proof.
  unfold displayForecast. keeps_all.
  apply (keeps_compose DOM (fun d => match weatherDisplay d with
                                     | Some _ => true | None => false end)),
    forecastCards_keeps_dom.
Qed.
Lemma displayForecast_keeps_prefs eng w v : keeps preferences (displayForecast eng w v).
Proof. apply (keeps_compose appState userPreferences), displayForecast_keeps_app. Qed.
#[export] Hint Resolve displayForecast_keeps_app displayForecast_keeps_shown
  displayForecast_keeps_display displayForecast_keeps_prefs : keeps.

Lemma fetch_keeps_app w url : keeps appState (fetch w url).
Proof. intros s. unfold fetch. destruct (fetchOracle w _ url); reflexivity. Qed.
Lemma fetch_keeps_dom w url : keeps DOM (fetch w url).
Proof. intros s. unfold fetch. destruct (fetchOracle w _ url); reflexivity. Qed.
Lemma fetch_keeps_prefs w url : keeps preferences (fetch w url).
Proof. apply (keeps_compose appState userPreferences), fetch_keeps_app. Qed.
Lemma fetch_keeps_display w url : keeps hasDisplay (fetch w url).
Proof.
  apply (keeps_compose DOM (fun d => match weatherDisplay d with
                                     | Some _ => true | None => false end)),
    fetch_keeps_dom.
Qed.
#[export] Hint Resolve fetch_keeps_app fetch_keeps_dom fetch_keeps_prefs
  fetch_keeps_display : keeps.

Lemma stationBlock_keeps_prefs eng data : keeps preferences (stationBlock eng data).
Proof. unfold stationBlock. keeps_all. Qed.
Lemma stationBlock_keeps_display eng data : keeps hasDisplay (stationBlock eng data).
Proof. unfold stationBlock. keeps_all. Qed.
Lemma stationBlock_keeps_count eng data : keeps fetchCount (stationBlock eng data).
Proof. unfold stationBlock. keeps_all. Qed.
Lemma stationBlock_keeps_dom eng data : keeps DOM (stationBlock eng data).
Proof. unfold stationBlock. keeps_all. Qed.
#[export] Hint Resolve stationBlock_keeps_prefs stationBlock_keeps_display
  stationBlock_keeps_count stationBlock_keeps_dom : keeps.

Lemma readingsBlock_keeps_prefs eng data : keeps preferences (readingsBlock eng data).
Proof. unfold readingsBlock. keeps_all. Qed.
Lemma readingsBlock_keeps_display eng data : keeps hasDisplay (readingsBlock eng data).
Proof. unfold readingsBlock. keeps_all. Qed.
Lemma readingsBlock_keeps_count eng data : keeps fetchCount (readingsBlock eng data).
Proof. unfold readingsBlock. keeps_all. Qed.
#[export] Hint Resolve readingsBlock_keeps_prefs readingsBlock_keeps_display
  readingsBlock_keeps_count : keeps.

Lemma fetchNEAWeather_keeps_prefs eng w : keeps preferences (fetchNEAWeather eng w).
Proof. unfold fetchNEAWeather. keeps_all. Qed.
Lemma fetchNEAWeather_keeps_display eng w : keeps hasDisplay (fetchNEAWeather eng w).
Proof. unfold fetchNEAWeather. keeps_all. Qed.
Lemma fetchNEAForecast_keeps_prefs eng w : keeps preferences (fetchNEAForecast eng w).
Proof. unfold fetchNEAForecast. keeps_all. Qed.
Lemma fetchNEAForecast_keeps_display eng w : keeps hasDisplay (fetchNEAForecast eng w).
Proof. unfold fetchNEAForecast. keeps_all. Qed.
#[export] Hint Resolve fetchNEAWeather_keeps_prefs fetchNEAWeather_keeps_display
  fetchNEAForecast_keeps_prefs fetchNEAForecast_keeps_display : keeps.

(** One fetch, whatever comes of it. *)
Lemma fetch_then_count (w : World) (url : jsstring)
    (k : bool * jsstring -> M unit) (h : Exn -> M unit) (s : State) :
  (forall r, keeps fetchCount (k r)) ->
  (forall e, keeps fetchCount (h e)) ->
  fetchCount (snd (try_catch (bind (fetch w url) k) h s)) = S (fetchCount s).
Proof.
  intros Hk Hh. unfold try_catch, bind, fetch.
  destruct (fetchOracle w (fetches (host s)) url) as [|ok body].
  - rewrite Hh. reflexivity.
  - pose proof (Hk (ok, body) (tick_fetch s)) as K.
    fold (tick_fetch s).
    destruct (k (ok, body) (tick_fetch s)) as [[e|a] s1]; simpl in K |- *.
    + rewrite Hh, K. reflexivity.
    + rewrite K. reflexivity.
Qed.

Lemma fetchNEAWeather_count (eng : Engine) (w : World) (s : State) :
  fetchCount (snd (fetchNEAWeather eng w s)) = S (fetchCount s).
Proof.
  unfold fetchNEAWeather. apply fetch_then_count; intros; keeps_all.
Qed.

(** A failed fetch makes the function that issued it throw. *)
Lemma fetch_fails_throws (w : World) (url msg label : jsstring)
    (k : JsVal -> M unit) (s : State) :
  fetch_fails (fetchOracle w (fetches (host s)) url) = true ->
  exists e,
    fst (try_catch
           (bind (fetch w url) (fun response =>
              let (ok, body) := response in
              if negb ok then throw (ErrorMsg msg)
              else bind (lift (Json.parse body)) k))
           (fun error => bind (console_error label error) (fun _ => throw error)) s)
    = inl e.
Proof.
  intros H. unfold try_catch, bind, fetch.
  destruct (fetchOracle w (fetches (host s)) url) as [|ok body]; simpl in H.
  - eexists. reflexivity.
  - destruct ok; simpl in H |- *.
    + destruct (Json.parse body) as [e|v]; [|discriminate].
      eexists. reflexivity.
    + eexists. reflexivity.
Qed.

Lemma fetchNEAWeather_fails (eng : Engine) (w : World) (s : State) :
  fetch_fails (fetchOracle w (fetchCount s) weatherUrl) = true ->
  exists e, fst (fetchNEAWeather eng w s) = inl e.
Proof. intros H. unfold fetchNEAWeather. apply fetch_fails_throws. exact H. Qed.

Lemma fetchNEAForecast_fails (eng : Engine) (w : World) (s : State) :
  fetch_fails (fetchOracle w (fetchCount s) forecastUrl) = true ->
  exists e, fst (fetchNEAForecast eng w s) = inl e.
Proof. intros H. unfold fetchNEAForecast. apply fetch_fails_throws. exact H. Qed.

Lemma getDateString_keeps_shown eng w n : keeps shownWeather (getDateString eng w n).
Proof. apply (keeps_compose DOM weatherDisplay), getDateString_keeps_dom. Qed.
#[export] Hint Resolve getDateString_keeps_shown : keeps.

(** What the fallback leaves as the weather snapshot, stored and shown,
    also when a later step of it throws. *)
Lemma loadMockWeatherData_weather (eng : Engine) (w : World) (s : State) :
  weatherData (appState (snd (loadMockWeatherData eng w s))) = Some mockWeatherData
  /\ shownWeather (snd (loadMockWeatherData eng w s))
     = (if hasDisplay s
        then Some (Written (weatherCardOf eng (preferences s) mockWeatherData))
        else None).
Proof.
  unfold loadMockWeatherData.
  erewrite bind_run by apply showNotification_run.
  erewrite bind_run by reflexivity.
  erewrite bind_run by apply updateWeatherDisplay_run.
  match goal with
  | |- context [snd (?m ?st)] => set (rest := m); set (s3 := st)
  end.
  assert (KA : keeps appState rest) by (unfold rest; keeps_all).
  assert (KS : keeps shownWeather rest) by (unfold rest; keeps_all).
  rewrite KA, KS. unfold s3. rewrite show_weather_app. split; [reflexivity|].
  unfold shownWeather, show_weather, hasDisplay, preferences.
  set (s2 := with_app _ _).
  assert (D2 : weatherDisplay (DOM s2) = weatherDisplay (DOM s)) by reflexivity.
  assert (P2 : userPreferences (appState s2) = userPreferences (appState s))
    by reflexivity.
  rewrite D2, P2.
  destruct (weatherDisplay (DOM s)) eqn:E; [reflexivity | exact D2].
Qed.

(** The [try] block of loadWeatherData throws as soon as one of its two
    fetches fails. *)
Lemma weather_block_throws (eng : Engine) (w : World) (m t : jsstring) (s : State) :
  fetch_fails (fetchOracle w (fetchCount s) weatherUrl) = true
  \/ fetch_fails (fetchOracle w (S (fetchCount s)) forecastUrl) = true ->
  exists e,
    fst (bind (showNotification m t)
           (fun _ => bind (fetchNEAWeather eng w) (fun _ => fetchNEAForecast eng w)) s)
    = inl e.
Proof.
  intros H.
  erewrite bind_run by apply showNotification_run.
  set (s1 := with_dom _ s).
  assert (C1 : fetchCount s1 = fetchCount s) by reflexivity.
  pose proof (fetchNEAWeather_count eng w s1) as C2.
  unfold bind.
  destruct (fetchNEAWeather eng w s1) as [[e|[]] s2] eqn:E.
  - exists e. reflexivity.
  - simpl in C2. destruct H as [H|H].
    + rewrite <- C1 in H. apply (fetchNEAWeather_fails eng) in H.
      destruct H as [e He]. rewrite E in He. discriminate.
    + rewrite <- C1, <- C2 in H. apply (fetchNEAForecast_fails eng) in H.
      destruct H as [e He]. exists e.
      destruct (fetchNEAForecast eng w s2) as [[e'|[]] s3]; simpl in He |- *;
        [exact He | discriminate].
Qed.

(** C1.  When the current-conditions fetch or the forecast fetch fails
    (network failure, a status that is not a success, a body that is not
    JSON), loadWeatherData ends with the fixed fallback record as the stored
    weather: temperature 22, source 'Mock'; and the weather element, when
    the page has one, shows the card of that record: 22 and 'Mock'. *)
Theorem loadWeatherData_fallback (eng : Engine) (world : World) (s : State) :
  fetch_fails (fetchOracle world (fetchCount s) weatherUrl) = true
  \/ fetch_fails (fetchOracle world (S (fetchCount s)) forecastUrl) = true ->
  weatherData (appState (snd (loadWeatherData eng world s))) = Some mockWeatherData
  /\ option_map temperature (weatherData (appState (snd (loadWeatherData eng world s))))
     = Some 22%float
  /\ option_map source (weatherData (appState (snd (loadWeatherData eng world s))))
     = Some (js "Mock")
  /\ shownWeather (snd (loadWeatherData eng world s))
     = (if hasDisplay s
        then Some (Written (weatherCardOf eng (preferences s) mockWeatherData))
        else None)
  /\ wc_temp (weatherCardOf eng (preferences s) mockWeatherData) = 22%float
  /\ wc_source (weatherCardOf eng (preferences s) mockWeatherData) = js "Mock".
Proof.
  intros H.
  assert (Hfinal :
    weatherData (appState (snd (loadWeatherData eng world s))) = Some mockWeatherData
    /\ shownWeather (snd (loadWeatherData eng world s))
       = (if hasDisplay s
          then Some (Written (weatherCardOf eng (preferences s) mockWeatherData))
          else None)).
  { unfold loadWeatherData, try_catch.
    match goal with
    | |- context [match ?b s with _ => _ end] => set (block := b)
    end.
    destruct (weather_block_throws eng world
                (js "🌤️ Loading real-time weather data from NEA...") (js "info") s H)
      as [e He].
    change (fst (block s) = inl e) in He.
    assert (KP : keeps preferences block) by (unfold block; keeps_all).
    assert (KD : keeps hasDisplay block) by (unfold block; keeps_all).
    specialize (KP s). specialize (KD s).
    destruct (block s) as [[e'|[]] sx]; simpl in He, KP, KD; [|discriminate].
    erewrite bind_run by reflexivity.
    destruct (loadMockWeatherData_weather eng world
                (with_host (fun h => set_console
                   (ConsoleError (js "Error loading weather:") e' :: console h) h) sx))
      as [W S].
    split; [exact W|].
    rewrite S. unfold hasDisplay, preferences in *.
    cbn [with_host DOM appState]. rewrite KP, KD. reflexivity. }
  destruct Hfinal as [W S].
  rewrite W. repeat split; try reflexivity; try exact S.
Qed.

Lemma loadWeatherData_fallback_witness :
  weatherData (appState (snd (loadWeatherData sgEngine offlineWorld freshPage)))
    = Some mockWeatherData
  /\ option_map temperature
       (weatherData (appState (snd (loadWeatherData sgEngine offlineWorld freshPage))))
     = Some 22%float
  /\ option_map source
       (weatherData (appState (snd (loadWeatherData sgEngine offlineWorld freshPage))))
     = Some (js "Mock")
  /\ shownWeather (snd (loadWeatherData sgEngine offlineWorld freshPage))
     = (if hasDisplay freshPage
        then Some (Written (weatherCardOf sgEngine (preferences freshPage) mockWeatherData))
        else None)
  /\ wc_temp (weatherCardOf sgEngine (preferences freshPage) mockWeatherData) = 22%float
  /\ wc_source (weatherCardOf sgEngine (preferences freshPage) mockWeatherData) = js "Mock".
Proof.
  apply (loadWeatherData_fallback sgEngine offlineWorld freshPage).
  left. vm_compute. reflexivity.
Defined.

(* ================================================================== *)
(** ** Further properties *)
(* ================================================================== *)

(** *** The matcher and the language of an expression *)

Lemma nullable_lang (r : RegExp.Re) : RegExp.nullable r = true <-> lang r [].
Proof.
  induction r as [| |x| |negated items|r1 IHr1 r2 IHr2|r1 IHr1 r2 IHr2|r IHr]; simpl.
  - split; [discriminate | intros H; inversion H].
  - split; [intros _; constructor | reflexivity].
  - split; [discriminate | intros H; inversion H].
  - split; [discriminate | intros H; inversion H].
  - split; [discriminate | intros H; inversion H].
  - rewrite andb_true_iff, IHr1, IHr2. split.
    + intros [H1 H2]. apply (@L_seq _ _ [] [] H1 H2).
    + intros H. inversion H as [| | | |a b s1 s2 H1 H2 E1 E2| | | |]; subst.
      apply app_eq_nil in E2. destruct E2; subst. split; assumption.
  - rewrite orb_true_iff, IHr1, IHr2. split.
    + intros [H|H]; [apply L_alt_l | apply L_alt_r]; assumption.
    + intros H. inversion H; subst; [left | right]; assumption.
  - split; [intros _; constructor | reflexivity].
Qed.

(** A match of a starred expression that begins with [c] begins with a
    match of the expression that begins with [c]. *)
Lemma star_cons_inv (a : RegExp.Re) (s : jsstring) :
  lang (RegExp.RStar a) s ->
  forall c s', s = c :: s' ->
    exists s1 s2, s' = s1 ++ s2 /\ lang a (c :: s1) /\ lang (RegExp.RStar a) s2.
Proof.
  intros H. remember (RegExp.RStar a) as r eqn:Er.
  induction H as [| | | | | | | |a' s1 s2 H1 IH1 H2 IH2]; try discriminate.
  injection Er as ->. intros c s' E.
  destruct s1 as [|c1 s1].
  - simpl in E. apply (IH2 eq_refl c s' E).
  - simpl in E. injection E as -> <-.
    exists s1, s2. repeat split; assumption.
Qed.

Lemma deriv_lang (r : RegExp.Re) :
  forall (c : N) (s : jsstring), lang (RegExp.deriv r c) s <-> lang r (c :: s).
Proof.
  induction r as [| |x| |negated items|r1 IHr1 r2 IHr2|r1 IHr1 r2 IHr2|r IHr];
    intros c s; simpl.
  - split; intros H; inversion H.
  - split; intros H; inversion H.
  - destruct (N.eqb_spec c x) as [->|Hne].
    + split; intros H; inversion H; subst; constructor.
    + split; intros H; inversion H; subst. congruence.
  - split; intros H; inversion H; subst; constructor.
  - destruct (RegExp.class_has negated items c) eqn:E.
    + split; intros H; inversion H; subst; constructor; assumption.
    + split; intros H; inversion H; subst. congruence.
  - assert (Hseq : lang (RegExp.RSeq (RegExp.deriv r1 c) r2) s
                   \/ (RegExp.nullable r1 = true /\ lang (RegExp.deriv r2 c) s)
                   <-> lang (RegExp.RSeq r1 r2) (c :: s)).
    { split.
      - intros [H|[Hn H]].
        + inversion H as [| | | |a b s1 s2 H1 H2| | | |]; subst.
          apply IHr1 in H1. apply (@L_seq _ _ (c :: s1) s2 H1 H2).
        + apply nullable_lang in Hn. apply IHr2 in H.
          apply (@L_seq _ _ [] (c :: s) Hn H).
      - intros H. inversion H as [| | | |a b s1 s2 H1 H2 E1 E2| | | |]; subst.
        destruct s1 as [|c1 s1]; simpl in E2.
        + subst s2. right. split; [apply nullable_lang; assumption | apply IHr2; assumption].
        + injection E2 as -> <-. left. apply L_seq; [apply IHr1; assumption | assumption]. }
    destruct (RegExp.nullable r1) eqn:Hn.
    + rewrite <- Hseq. split.
      * intros H. inversion H; subst; [left | right; split]; auto.
      * intros [H|[_ H]]; [apply L_alt_l | apply L_alt_r]; assumption.
    + rewrite <- Hseq. split; [intros H; left; exact H|].
      intros [H|[Hc _]]; [exact H | discriminate].
  - split.
    + intros H. inversion H; subst;
        [apply L_alt_l, IHr1 | apply L_alt_r, IHr2]; assumption.
    + intros H. inversion H; subst;
        [apply L_alt_l, IHr1 | apply L_alt_r, IHr2]; assumption.
  - split.
    + intros H. inversion H as [| | | |a b s1 s2 H1 H2| | | |]; subst.
      apply IHr in H1. apply (@L_star_cons _ (c :: s1) s2 H1 H2).
    + intros H. destruct (star_cons_inv r _ H c s eq_refl) as [s1 [s2 [-> [H1 H2]]]].
      apply L_seq; [apply IHr; assumption | assumption].
Qed.

(** The matcher decides the language of the expression. *)
Theorem matches_lang (r : RegExp.Re) (s : jsstring) :
  RegExp.matches r s = true <-> lang r s.
Proof.
  revert r. induction s as [|c s IH]; intros r; simpl.
  - apply nullable_lang.
  - rewrite IH. apply deriv_lang.
Qed.

(** *** The shape of an accepted address *)

Lemma lang_seq_inv (a b : RegExp.Re) (s : jsstring) :
  lang (RegExp.RSeq a b) s <->
  exists s1 s2, s = s1 ++ s2 /\ lang a s1 /\ lang b s2.
Proof.
  split.
  - intros H. inversion H as [| | | |a' b' s1 s2 H1 H2| | | |]; subst.
    exists s1, s2. repeat split; assumption.
  - intros [s1 [s2 [-> [H1 H2]]]]. apply L_seq; assumption.
Qed.

Lemma lang_chr_inv (c : N) (s : jsstring) : lang (RegExp.RChar c) s <-> s = [c].
Proof.
  split; [intros H; inversion H; reflexivity | intros ->; constructor].
Qed.

Lemma lang_eps_inv (s : jsstring) : lang RegExp.REps s <-> s = [].
Proof.
  split; [intros H; inversion H; reflexivity | intros ->; constructor].
Qed.

Lemma part_class (c : N) :
  RegExp.class_has true [RegExp.CSpace; RegExp.CChar 64] c = true <-> part_unit c.
Proof.
  unfold RegExp.class_has, part_unit. cbn [existsb RegExp.item_has].
  rewrite orb_false_r.
  destruct (RegExp.is_space c); destruct (N.eqb_spec c 64); cbn;
    split; try tauto; try discriminate; intros [? ?]; congruence.
Qed.

Lemma lang_part_unit (s : jsstring) :
  lang (RegExp.RClass true [RegExp.CSpace; RegExp.CChar 64]) s <->
  exists c, s = [c] /\ part_unit c.
Proof.
  split.
  - intros H. inversion H; subst. eexists; split; [reflexivity|].
    apply part_class. assumption.
  - intros [c [-> H]]. constructor. apply part_class. assumption.
Qed.

Lemma lang_star_parts (s : jsstring) :
  lang (RegExp.RStar (RegExp.RClass true [RegExp.CSpace; RegExp.CChar 64])) s <->
  Forall part_unit s.
Proof.
  split.
  - intros H.
    remember (RegExp.RStar (RegExp.RClass true [RegExp.CSpace; RegExp.CChar 64]))
      as r eqn:Er.
    induction H as [| | | | | | | |a s1 s2 H1 IH1 H2 IH2]; try discriminate.
    + constructor.
    + injection Er as ->. apply lang_part_unit in H1. destruct H1 as [c [-> Hc]].
      simpl. constructor; [exact Hc | apply IH2; reflexivity].
  - intros H. induction H as [|c s Hc Hs IH].
    + constructor.
    + apply (@L_star_cons _ [c] s); [|exact IH].
      apply lang_part_unit. exists c. split; [reflexivity | exact Hc].
Qed.

Lemma lang_address_part (s : jsstring) :
  lang (RegExp.RPlus (RegExp.RClass true [RegExp.CSpace; RegExp.CChar 64])) s <->
  address_part s.
Proof.
  unfold RegExp.RPlus, address_part. rewrite lang_seq_inv. split.
  - intros [s1 [s2 [-> [H1 H2]]]].
    apply lang_part_unit in H1. destruct H1 as [c [-> Hc]].
    apply lang_star_parts in H2. simpl. split; [discriminate|].
    constructor; assumption.
  - intros [Hne H]. destruct H as [|c s Hc Hs]; [congruence|].
    exists [c], s. split; [reflexivity|]. split.
    + apply lang_part_unit. exists c. split; [reflexivity | exact Hc].
    + apply lang_star_parts. exact Hs.
Qed.

(** X1.  isValidEmail accepts exactly the strings of the form
    [local @ domain . rest], each of the three parts non-empty and free of
    white space and of [@]. *)
Theorem isValidEmail_shape (s : jsstring) :
  isValidEmail s = true <->
  exists a b c,
    s = a ++ 64%N :: b ++ 46%N :: c
    /\ address_part a /\ address_part b /\ address_part c.
Proof.
  unfold isValidEmail, RegExp.test, emailRegex.
  cbn [RegExp.anchored_start RegExp.anchored_end RegExp.body].
  rewrite matches_lang. split.
  - intros H.
    apply lang_seq_inv in H. destruct H as [e1 [r1 [-> [He1 H]]]].
    apply lang_eps_inv in He1. subst e1.
    apply lang_seq_inv in H. destruct H as [m [e2 [-> [H He2]]]].
    apply lang_eps_inv in He2. subst e2.
    apply lang_seq_inv in H. destruct H as [a [r2 [-> [Ha H]]]].
    apply lang_seq_inv in H. destruct H as [at_ [r3 [-> [Hat H]]]].
    apply lang_chr_inv in Hat. subst at_.
    apply lang_seq_inv in H. destruct H as [b [r4 [-> [Hb H]]]].
    apply lang_seq_inv in H. destruct H as [dot [c [-> [Hdot Hc]]]].
    apply lang_chr_inv in Hdot. subst dot.
    apply lang_address_part in Ha, Hb, Hc.
    exists a, b, c. split; [|split; [exact Ha | split; [exact Hb | exact Hc]]].
    simpl. rewrite app_nil_r. reflexivity.
  - intros [a [b [c [-> [Ha [Hb Hc]]]]]].
    apply lang_address_part in Ha, Hb, Hc.
    apply (@L_seq _ _ [] _); [constructor|].
    rewrite <- (app_nil_r (a ++ _)).
    apply L_seq; [|constructor].
    apply L_seq; [exact Ha|].
    apply (@L_seq _ _ [64%N] _); [constructor|].
    apply L_seq; [exact Hb|].
    apply (@L_seq _ _ [46%N] _); [constructor | exact Hc].
Qed.

Lemma part_no_at (p : jsstring) :
  Forall part_unit p -> count_occ N.eq_dec p 64%N = 0%nat.
Proof.
  intros H. induction H as [|c p [_ Hc] _ IH]; [reflexivity|].
  simpl. destruct (N.eq_dec c 64); [congruence | exact IH].
Qed.

(** X2.  An accepted address holds exactly one [@], no white space, and a
    dot somewhere after the [@]; in particular the empty string and a
    string with a space are rejected. *)
Theorem isValidEmail_one_at (s : jsstring) :
  isValidEmail s = true ->
  count_occ N.eq_dec s 64%N = 1%nat
  /\ Forall (fun c => RegExp.is_space c = false) s
  /\ exists before_at after_at,
       s = before_at ++ 64%N :: after_at /\ In 46%N after_at /\ before_at <> [].
Proof.
  intros H. apply isValidEmail_shape in H.
  destruct H as [a [b [c [-> [[Na Ha] [[Nb Hb] [Nc Hc]]]]]]].
  split; [|split].
  - rewrite count_occ_app. cbn [count_occ].
    destruct (N.eq_dec 64 64) as [_|X]; [|congruence].
    rewrite count_occ_app. cbn [count_occ].
    destruct (N.eq_dec 46 64) as [X|_]; [discriminate|].
    rewrite !part_no_at by assumption. reflexivity.
  - apply Forall_app. split; [eapply Forall_impl; [|exact Ha]; intros x [X _]; exact X|].
    constructor; [reflexivity|].
    apply Forall_app. split; [eapply Forall_impl; [|exact Hb]; intros x [X _]; exact X|].
    constructor; [reflexivity|].
    eapply Forall_impl; [|exact Hc]. intros x [X _]. exact X.
  - exists a, (b ++ 46%N :: c). split; [reflexivity|]. split; [|exact Na].
    apply in_or_app. right. left. reflexivity.
Qed.

Lemma isValidEmail_one_at_witness :
  count_occ N.eq_dec (js "crew@shore.sg") 64%N = 1%nat
  /\ Forall (fun c => RegExp.is_space c = false) (js "crew@shore.sg")
  /\ exists before_at after_at,
       js "crew@shore.sg" = before_at ++ 64%N :: after_at
       /\ In 46%N after_at /\ before_at <> [].
Proof.
  apply (isValidEmail_one_at (js "crew@shore.sg")).
  vm_compute. reflexivity.
Defined.

(** *** Markers and their events *)

(** X3.  After updateMapMarkers the children of the container, when the
    page has one, are the markers of the events of [appState.cleanups], one
    for one and in order: each carries the name, volunteer count and date
    of its event, and a click on it shows the toast of that same event. *)
Theorem updateMapMarkers_markers (a b : option float) (s : State) :
  mapMarkers (DOM s) <> None ->
  exists children,
    mapMarkers (DOM (snd (updateMapMarkers a b s))) = Some children
    /\ Forall2 marker_of_event children (cleanups (appState s))
    /\ appState (snd (updateMapMarkers a b s)) = appState s
    /\ host (snd (updateMapMarkers a b s)) = host s
    /\ toasts (DOM (snd (updateMapMarkers a b s))) = toasts (DOM s).
Proof.
  intros Hc. rewrite updateMapMarkers_run. cbn [snd].
  destruct (mapMarkers (DOM s)) as [ch|]; [|congruence].
  exists (markersOf (cleanups (appState s))).
  split; [reflexivity|]. split; [|repeat split].
  induction (cleanups (appState s)) as [|ev evs IH]; simpl; constructor.
  - exists (markerFor ev). repeat split.
  - exact IH.
Qed.

Lemma updateMapMarkers_markers_witness :
  exists children,
    mapMarkers (DOM (snd (updateMapMarkers None None
       (with_app (set_cleanups generateMockCleanups) freshPage)))) = Some children
    /\ Forall2 marker_of_event children
         (cleanups (appState (with_app (set_cleanups generateMockCleanups) freshPage)))
    /\ appState (snd (updateMapMarkers None None
          (with_app (set_cleanups generateMockCleanups) freshPage)))
       = appState (with_app (set_cleanups generateMockCleanups) freshPage)
    /\ host (snd (updateMapMarkers None None
          (with_app (set_cleanups generateMockCleanups) freshPage)))
       = host (with_app (set_cleanups generateMockCleanups) freshPage)
    /\ toasts (DOM (snd (updateMapMarkers None None
          (with_app (set_cleanups generateMockCleanups) freshPage))))
       = toasts (DOM (with_app (set_cleanups generateMockCleanups) freshPage)).
Proof.
  apply (updateMapMarkers_markers None None
           (with_app (set_cleanups generateMockCleanups) freshPage)).
  discriminate.
Defined.

(** *** What a load can do to the preferences *)

Lemma obj_replace_keeps_key (p : Props) (k k' : jsstring) (v : JsVal) :
  Js.obj_get p k' <> None -> Js.obj_get (Js.obj_replace p k v) k' <> None.
Proof.
  induction p as [|[k0 v0] p IH]; simpl; [congruence|].
  destruct (JsStr.eqb k0 k) eqn:E; simpl.
  - destruct (JsStr.eqb k0 k'); [discriminate | auto].
  - destruct (JsStr.eqb k0 k'); [discriminate | auto].
Qed.

Lemma obj_insert_index_keeps_key (p : Props) (n : N) (k k' : jsstring) (v : JsVal) :
  Js.obj_get p k' <> None -> Js.obj_get (Js.obj_insert_index p n k v) k' <> None.
Proof.
  induction p as [|[k0 v0] p IH]; [simpl; congruence|].
  intros H. cbn [Js.obj_insert_index].
  assert (Hfront : Js.obj_get ((k, v) :: (k0, v0) :: p) k' <> None).
  { cbn [Js.obj_get] in H |- *. destruct (JsStr.eqb k k'); [discriminate | exact H]. }
  destruct (Js.array_index k0) as [n'|]; [|exact Hfront].
  destruct (n' <? n)%N; [|exact Hfront].
  cbn [Js.obj_get] in H |- *.
  destruct (JsStr.eqb k0 k'); [discriminate | auto].
Qed.

Lemma obj_append_keeps_key (p q : Props) (k' : jsstring) :
  Js.obj_get p k' <> None -> Js.obj_get (p ++ q) k' <> None.
Proof.
  induction p as [|[k0 v0] p IH]; simpl; [congruence|].
  destruct (JsStr.eqb k0 k'); [discriminate | auto].
Qed.

Lemma obj_set_keeps_key (p : Props) (k k' : jsstring) (v : JsVal) :
  Js.obj_get p k' <> None -> Js.obj_get (Js.obj_set p k v) k' <> None.
Proof.
  intros H. unfold Js.obj_set.
  destruct (Js.has_own p k); [apply obj_replace_keeps_key; exact H|].
  destruct (Js.array_index k) as [n|].
  - apply obj_insert_index_keeps_key. exact H.
  - apply obj_append_keeps_key. exact H.
Qed.

Lemma spread_keeps_key (p : Props) (v : JsVal) (k' : jsstring) :
  Js.obj_get p k' <> None -> Js.obj_get (Js.spread p v) k' <> None.
Proof.
  unfold Js.spread. generalize (Js.own_props v). intros q. revert p.
  induction q as [|[k x] q IH]; intros p H; simpl; [exact H|].
  apply IH. apply obj_set_keeps_key. exact H.
Qed.

Lemma spread_nothing (p : Props) (v : JsVal) :
  no_own_properties v -> Js.spread p v = p.
Proof.
  destruct v; simpl; intros H; subst; reflexivity.
Qed.

(** X4.  Whatever string is stored, a load leaves every preference that
    was defined still defined: a stored record can replace values and add
    keys, never remove one. *)
Theorem loadUserPreferences_keeps_keys
    (s : State) (stored : list (jsstring * jsstring)) (k : jsstring) :
  Js.obj_get (userPreferences (appState s)) k <> None ->
  Js.obj_get
    (userPreferences (appState (snd (loadUserPreferences (with_storage stored s))))) k
    <> None.
Proof.
  intros Hk. rewrite loadUserPreferences_run.
  cbn [with_storage with_host host localStorage set_localStorage].
  destruct (getItem stored storageKey) as [[|c text]|]; try exact Hk.
  destruct (Json.parse (c :: text)) as [e|parsed]; [exact Hk|].
  cbn [snd put_preferences with_app appState userPreferences set_userPreferences
       with_storage with_host].
  apply spread_keeps_key. exact Hk.
Qed.

Lemma loadUserPreferences_keeps_keys_witness :
  Js.obj_get
    (userPreferences (appState (snd (loadUserPreferences
       (with_storage [(storageKey, jsq "{'units':7,'theme':'sea'}")] freshPage)))))
    (js "units")
    <> None.
Proof.
  apply (loadUserPreferences_keeps_keys freshPage
           [(storageKey, jsq "{'units':7,'theme':'sea'}")] (js "units")).
  vm_compute. discriminate.
Defined.

(** X5.  A stored JSON value with no properties of its own (a number, a
    boolean, null, an empty string, array or object) is ignored: the load
    returns without an error and the preferences are as they were. *)
Theorem loadUserPreferences_ignores_scalars
    (s : State) (stored : list (jsstring * jsstring)) (saved : jsstring)
    (parsed : JsVal) :
  getItem stored storageKey = Some saved ->
  Json.parse saved = inr parsed ->
  no_own_properties parsed ->
  fst (loadUserPreferences (with_storage stored s)) = inr tt
  /\ userPreferences (appState (snd (loadUserPreferences (with_storage stored s))))
     = userPreferences (appState s).
Proof.
  intros Hget Hparse Hno. rewrite loadUserPreferences_run.
  cbn [with_storage with_host host localStorage set_localStorage].
  rewrite Hget.
  destruct saved as [|c text]; [vm_compute in Hparse; discriminate|].
  rewrite Hparse. cbn [fst snd]. split; [reflexivity|].
  cbn [put_preferences with_app appState userPreferences set_userPreferences
       with_storage with_host].
  apply spread_nothing. exact Hno.
Qed.

Lemma loadUserPreferences_ignores_scalars_witness :
  fst (loadUserPreferences (with_storage [(storageKey, js "42")] freshPage)) = inr tt
  /\ userPreferences (appState (snd (loadUserPreferences
        (with_storage [(storageKey, js "42")] freshPage))))
     = userPreferences (appState freshPage).
Proof.
  apply (loadUserPreferences_ignores_scalars freshPage [(storageKey, js "42")]
           (js "42") (VNum 42)).
  - reflexivity.
  - vm_compute. reflexivity.
  - exact I.
Defined.

(** *** The date string of getDateString *)


